(** * The PID control thread of IronOS (source/Core/Threads/PIDThread.cpp)

    A shallow embedding of [startPIDTask], [detectThermalRunaway] and
    [setOutputx10WattsViaFilters].  One iteration of the endless loop of
    [startPIDTask] is the function [pidCycle]: it takes the state that
    survives from one iteration to the next (the [tempError] history, the
    function-local statics and the [heaterThermalRunaway] global) and the
    values the iteration reads from its collaborators, and returns the new
    state together with the calls made to the heater driver and the
    watchdog, in program order. *)

From Stdlib Require Import ZArith List Bool Lia.
From stdpp Require Import base list.
Import ListNotations.
Local Open Scope Z_scope.

(** ** Fixed-width integers

    Values are kept in [Z]; every conversion the C++ performs is written
    out.  Conversions to a signed type and signed arithmetic that leaves
    the 32-bit range are taken modulo 2^32 (two's complement), which is
    what the targets of this firmware do. *)

Definition wrapU (w x : Z) : Z := x mod 2 ^ w.
Definition wrapS (w x : Z) : Z := (x + 2 ^ (w - 1)) mod 2 ^ w - 2 ^ (w - 1).

Definition u16 : Z -> Z := wrapU 16.
Definition u32 : Z -> Z := wrapU 32.
Definition s16 : Z -> Z := wrapS 16.
Definition s32 : Z -> Z := wrapS 32.

Definition INT16_MAX : Z := 32767.
Definition INT16_MIN : Z := -32768.
Definition INT32_MAX : Z := 2147483647.
Definition INT32_MIN : Z := -2147483648.

(** ** history<T, SIZE> *)

(** Modelled from the spec: history.hpp is not part of the sources at hand.
    The spec describes a fixed-capacity circular buffer with a running sum:
    [update] replaces the oldest retained sample by the new one and adjusts
    the sum by the difference, [average] is the sum divided by the capacity
    (C++ integer division, truncating toward zero). *)
Record history : Type := mkHistory {
  buf : list Z;
  sum : Z;
  loc : nat
}.

Definition history_update (size : nat) (h : history) (val : Z) : history :=
  {| buf := <[loc h := val]> (buf h);
     sum := sum h - default 0 (buf h !! loc h) + val;
     loc := (loc h + 1) mod size |}.

Definition history_average (size : nat) (h : history) : Z :=
  Z.quot (sum h) (Z.of_nat size).

(** [history<int32_t, PID_TIM_HZ> tempError = {{0}, 0, 0};] *)
Definition history_init (size : nat) : history :=
  {| buf := replicate size 0; sum := 0; loc := 0 |}.

(** The sum of the samples of a buffer. *)
Definition sumZ (l : list Z) : Z := fold_right Z.add 0 l.

(** The invariant the spec asks of a history of capacity [size]: the buffer
    has [size] entries, the position is inside it, and [sum] is the sum of
    the entries. *)
Definition history_ok (size : nat) (h : history) : Prop :=
  length (buf h) = size /\ (loc h < size)%nat /\ sum h = sumZ (buf h).

(** ** Compile-time configuration

    The macros and the thermal model come from headers that are not part of
    the sources at hand; they are parameters of the development. *)
Record Config : Type := mkConfig {
  PID_TIM_HZ : nat;
  TICKS_100MS : Z;
  TICKS_SECOND : Z;
  THERMAL_RUNAWAY_TEMP_C : Z;
  THERMAL_RUNAWAY_TIME_SEC : Z;
  (** [Some l] when [SLEW_LIMIT] is defined as [l], [None] otherwise *)
  SLEW_LIMIT : option Z;
  (** whether [DEBUG_UART_OUTPUT] is defined *)
  DEBUG_UART_OUTPUT : bool;
  (** [int32_t tempToX10Watts(int32_t)] of the power model *)
  tempToX10Watts : Z -> Z
}.

(** ** Settings *)

Inductive SettingsOptions : Type :=
  | KeepAwakePulse
  | KeepAwakePulseWait
  | KeepAwakePulseDuration
  | PowerLimit.

(** ** What one iteration reads from outside

    Each field is the value returned by the named call, or held by the
    named global, during the iteration.  [xTaskGetTickCount] is called at
    four places; each place has its own reading. *)
Record env : Type := mkEnv {
  (** [ulTaskNotifyTake(pdTRUE, 2000)] *)
  ulTaskNotifyTake : Z;
  (** [TipThermoModel::getTipInC(true)] *)
  getTipInC : Z;
  (** the global [currentTempTargetDegC] *)
  currentTempTargetDegC : Z;
  (** [TipThermoModel::getTipMaxInC()] *)
  getTipMaxInC : Z;
  (** [x10WattHistory.average()] *)
  x10WattHistory_average : Z;
  (** [xTaskGetTickCount()] in [detectThermalRunaway] *)
  tickRunaway : Z;
  (** [xTaskGetTickCount()] in the test that opens a pulse window *)
  tickPulseCheck : Z;
  (** [xTaskGetTickCount()] stored in [lastPowerPulseStart] *)
  tickPulseStart : Z;
  (** [xTaskGetTickCount()] compared with [lastPowerPulseEnd] *)
  tickPulseFloor : Z;
  (** the settings store behind [getSettingValue] *)
  settings : SettingsOptions -> Z;
  (** [getTipRawTemp(0)] *)
  getTipRawTemp : Z;
  (** the global [powerSupplyWattageLimit] *)
  powerSupplyWattageLimit : Z
}.

(** The readings at the types the source gives them: the tip temperature
    and the set point are stored in [uint32_t] variables, the supply limit
    is an [int32_t].  Settings.h and BSP.h are not part of the sources at
    hand; [getSettingValue] and [getTipRawTemp] are taken to return
    [uint16_t], the tip maximum [uint32_t] and the notification count
    [uint32_t]. *)
Definition notified (e : env) : bool := negb (u32 (ulTaskNotifyTake e) =? 0).
Definition currentTipTempInC (e : env) : Z := u32 (getTipInC e).
Definition tempTarget (e : env) : Z := u32 (currentTempTargetDegC e).
Definition tipMaxInC (e : env) : Z := u32 (getTipMaxInC e).
Definition getSettingValue (e : env) (o : SettingsOptions) : Z := u16 (settings e o).
Definition tipRawTemp (e : env) : Z := u16 (getTipRawTemp e).
Definition supplyLimit (e : env) : Z := s32 (powerSupplyWattageLimit e).

(** ** State that survives an iteration *)
Record state : Type := mkState {
  (** local of [startPIDTask] *)
  tempError : history;
  (** local of [startPIDTask], declared outside the loop *)
  PIDTempTarget : Z;
  (** statics of [detectThermalRunaway] *)
  tipTempCRunawayTemp : Z;
  runawaylastChangeTime : Z;
  (** global *)
  heaterThermalRunaway : bool;
  (** statics of [setOutputx10WattsViaFilters] *)
  lastPowerPulseStart : Z;
  lastPowerPulseEnd : Z;
  x10WattsOutLast : Z
}.

Definition set_tempError (h : history) (s : state) : state :=
  mkState h (PIDTempTarget s) (tipTempCRunawayTemp s) (runawaylastChangeTime s)
          (heaterThermalRunaway s) (lastPowerPulseStart s) (lastPowerPulseEnd s)
          (x10WattsOutLast s).

Definition set_PIDTempTarget (t : Z) (s : state) : state :=
  mkState (tempError s) t (tipTempCRunawayTemp s) (runawaylastChangeTime s)
          (heaterThermalRunaway s) (lastPowerPulseStart s) (lastPowerPulseEnd s)
          (x10WattsOutLast s).

Definition set_runawayBaseline (temp time : Z) (s : state) : state :=
  mkState (tempError s) (PIDTempTarget s) temp time
          (heaterThermalRunaway s) (lastPowerPulseStart s) (lastPowerPulseEnd s)
          (x10WattsOutLast s).

Definition set_heaterThermalRunaway (b : bool) (s : state) : state :=
  mkState (tempError s) (PIDTempTarget s) (tipTempCRunawayTemp s)
          (runawaylastChangeTime s) b (lastPowerPulseStart s) (lastPowerPulseEnd s)
          (x10WattsOutLast s).

Definition set_powerPulse (start fin : Z) (s : state) : state :=
  mkState (tempError s) (PIDTempTarget s) (tipTempCRunawayTemp s)
          (runawaylastChangeTime s) (heaterThermalRunaway s) start fin
          (x10WattsOutLast s).

Definition set_x10WattsOutLast (x : Z) (s : state) : state :=
  mkState (tempError s) (PIDTempTarget s) (tipTempCRunawayTemp s)
          (runawaylastChangeTime s) (heaterThermalRunaway s)
          (lastPowerPulseStart s) (lastPowerPulseEnd s) x.

(** ** Calls to the heater driver and the watchdog *)
Inductive event : Type :=
  | SetTipX10Watts (x10Watts : Z)
  | SetTipPWM (pulse : Z)
  | LogSystemState (x10Watts : Z)
  | ResetWatchdog.

Section PIDThread.

Variable cfg : Config.

(** [static TickType_t powerPulseWaitUnit = 25 * TICKS_100MS;] *)
Definition powerPulseWaitUnit : Z := u32 (25 * TICKS_100MS cfg).
(** [static TickType_t powerPulseDurationUnit = (5 * TICKS_100MS) / 2;] *)
Definition powerPulseDurationUnit : Z := u32 (Z.quot (5 * TICKS_100MS cfg) 2).
(** [THERMAL_RUNAWAY_TIME_SEC * TICKS_SECOND], compared with a [TickType_t] *)
Definition runawayTimeLimit : Z :=
  u32 (THERMAL_RUNAWAY_TIME_SEC cfg * TICKS_SECOND cfg).

(** State on entry to the loop: the statics and globals at their
    initialisers, [tempError] zeroed. *)
Definition initState : state :=
  {| tempError := history_init (PID_TIM_HZ cfg);
     PIDTempTarget := 0;
     tipTempCRunawayTemp := 0;
     runawaylastChangeTime := 0;
     heaterThermalRunaway := false;
     lastPowerPulseStart := 0;
     lastPowerPulseEnd := 0;
     x10WattsOutLast := 0 |}.

(** *** detectThermalRunaway *)

(** [delta] of the source: the difference of the two temperatures as
    [int16_t], negated when negative. *)
Definition runawayDelta (s : state) (tipTemp : Z) : Z :=
  let delta := s16 (s16 tipTemp - s16 (tipTempCRunawayTemp s)) in
  if delta <? 0 then s16 (- delta) else delta.

(** [xTaskGetTickCount() - runawaylastChangeTime] *)
Definition runawayElapsed (s : state) (now : Z) : Z :=
  u32 (u32 now - runawaylastChangeTime s).

(** [tipTemp] is the argument before its conversion to the [int16_t]
    parameter, [now] the tick count read inside the function. *)
Definition detectThermalRunaway (s : state) (tipTemp tError now : Z) : state :=
  let currentTipTempInC := s16 tipTemp in
  if tError >? THERMAL_RUNAWAY_TEMP_C cfg then
    if runawayDelta s tipTemp >? THERMAL_RUNAWAY_TEMP_C cfg then
      set_runawayBaseline (u16 currentTipTempInC) (u32 now) s
    else if runawayElapsed s now >? runawayTimeLimit then
      set_heaterThermalRunaway true s
    else s
  else set_runawayBaseline (u16 currentTipTempInC) (u32 now) s.

(** *** setOutputx10WattsViaFilters, stage by stage *)

(** The keep-awake block: maintenance of the pulse window. *)
Definition pulseWindow (s : state) (e : env) : state :=
  if getSettingValue e KeepAwakePulse =? 0 then s
  else
    let powerPulseWait := u32 (powerPulseWaitUnit * getSettingValue e KeepAwakePulseWait) in
    if u32 (u32 (tickPulseCheck e) - lastPowerPulseStart s) >? powerPulseWait then
      let powerPulseDuration :=
        u32 (powerPulseDurationUnit * getSettingValue e KeepAwakePulseDuration) in
      let start := u32 (tickPulseStart e) in
      set_powerPulse start (u32 (start + powerPulseDuration)) s
    else s.

(** The keep-awake block: the floor, on the window left by [pulseWindow]. *)
Definition pulseFloor (s : state) (e : env) (x10WattsOut : Z) : Z :=
  if getSettingValue e KeepAwakePulse =? 0 then x10WattsOut
  else if (x10WattsOut <? getSettingValue e KeepAwakePulse)
          && (u32 (tickPulseFloor e) <? lastPowerPulseEnd s)
       then getSettingValue e KeepAwakePulse
       else x10WattsOut.

Definition adcCutoff (e : env) (x10WattsOut : Z) : Z :=
  if tipRawTemp e >? 0x7FFF - 32 then 0 else x10WattsOut.

Definition runawayCutoff (s : state) (x10WattsOut : Z) : Z :=
  if heaterThermalRunaway s then 0 else x10WattsOut.

Definition powerLimitCeiling (e : env) (x10WattsOut : Z) : Z :=
  if negb (getSettingValue e PowerLimit =? 0)
     && (x10WattsOut >? getSettingValue e PowerLimit * 10)
  then getSettingValue e PowerLimit * 10
  else x10WattsOut.

Definition supplyCeiling (e : env) (x10WattsOut : Z) : Z :=
  if negb (supplyLimit e =? 0) && (x10WattsOut >? s32 (supplyLimit e * 10))
  then s32 (supplyLimit e * 10)
  else x10WattsOut.

(** The block under [#ifdef SLEW_LIMIT], without the store to
    [x10WattsOutLast]. *)
Definition slewLimit (s : state) (x10WattsOut : Z) : Z :=
  match SLEW_LIMIT cfg with
  | None => x10WattsOut
  | Some limit =>
      let x := if s32 (x10WattsOut - x10WattsOutLast s) >? limit
               then s32 (x10WattsOutLast s + limit) else x10WattsOut in
      if x <? 0 then 0 else x
  end.

(** The value handed to [setTipX10Watts]. *)
Definition filteredOutput (s : state) (e : env) (x10WattsOut : Z) : Z :=
  let s1 := pulseWindow s e in
  slewLimit s1
    (supplyCeiling e
       (powerLimitCeiling e
          (runawayCutoff s1
             (adcCutoff e
                (pulseFloor s1 e x10WattsOut))))).

Definition setOutputx10WattsViaFilters (s : state) (e : env) (x10WattsOut : Z)
  : state * list event :=
  let s1 := pulseWindow s e in
  let out := filteredOutput s e x10WattsOut in
  let s2 := match SLEW_LIMIT cfg with
            | None => s1
            | Some _ => set_x10WattsOutLast out s1
            end in
  (s2, SetTipX10Watts out
         :: (if DEBUG_UART_OUTPUT cfg then [LogSystemState out] else [])
         ++ [ResetWatchdog]).

(** *** The body of the loop of startPIDTask *)

(** The set point after the two caps. *)
Definition clampTarget (e : env) : Z :=
  let t := if tempTarget e >? 450 then 450 else tempTarget e in
  if t >? tipMaxInC e then tipMaxInC e else t.

(** The two saturations of [tError]. *)
Definition saturate16 (tError : Z) : Z :=
  let tError := if tError >? INT16_MAX then INT16_MAX else tError in
  if tError <? INT16_MIN then INT16_MIN else tError.

(** [tError]: the difference is taken in [uint32_t] and stored in an
    [int32_t]. *)
Definition tempErrorOf (e : env) : Z :=
  saturate16 (s32 (u32 (clampTarget e - currentTipTempInC e + 1))).

(** The P term, [x10WattsOut] after the first [+=]. *)
Definition pTerm (e : env) : Z := s32 (0 + tempToX10Watts cfg (tempErrorOf e)).

(** The summand of the second [+=]. *)
Definition iTerm (e : env) : Z := x10WattHistory_average e.

(** What the branch on [PIDTempTarget] leaves behind: the state with the
    history and the set point updated, [x10WattsOut], and the error handed
    to [detectThermalRunaway]. *)
Definition pidCompute (s : state) (e : env) : state * Z * Z :=
  if tempTarget e =? 0 then
    (set_PIDTempTarget 0 s, 0, 0)
  else
    let tError := tempErrorOf e in
    let s1 := set_PIDTempTarget (clampTarget e) s in
    let s2 := set_tempError (history_update (PID_TIM_HZ cfg) (tempError s1) tError) s1 in
    (s2, s32 (pTerm e + iTerm e), tError).

Definition pidCycle (s : state) (e : env) : state * list event :=
  if notified e then
    let '(s1, x10WattsOut, tError) := pidCompute s e in
    let s2 := detectThermalRunaway s1 (currentTipTempInC e) tError (tickRunaway e) in
    setOutputx10WattsViaFilters s2 e x10WattsOut
  else
    (s, [SetTipPWM 0]).

(** Iterations of the loop, one per element of [es]; the calls of all
    iterations in order. *)
Fixpoint pidRun (s : state) (es : list env) : state * list event :=
  match es with
  | [] => (s, [])
  | e :: es' =>
      let '(s1, tr1) := pidCycle s e in
      let '(s2, tr2) := pidRun s1 es' in
      (s2, tr1 ++ tr2)
  end.

(** [startPIDTask] as far as the loop has run: the output is disabled
    with [setTipX10Watts(0)], the state is initialised, and the loop body
    runs once per element of [es].  The pre-seeding of the ADC filters
    before the loop writes nothing kept here. *)
Definition startPIDTask (es : list env) : state * list event :=
  let '(s, tr) := pidRun initState es in
  (s, SetTipX10Watts 0 :: tr).

(** *** Vocabulary of the properties *)

(** [x10WattsOutLast] holds an [int32_t]. *)
Definition state_wf (s : state) : Prop :=
  INT32_MIN <= x10WattsOutLast s <= INT32_MAX.

(** [SLEW_LIMIT], where defined, is a step size: not negative, an [int]. *)
Definition slewLimit_wf : Prop :=
  match SLEW_LIMIT cfg with
  | Some limit => 0 <= limit <= INT32_MAX
  | None => True
  end.

(** Consecutive calls of [detectThermalRunaway]; a call is the tip
    temperature, the error and the tick count it reads. *)
Fixpoint detectRun (s : state) (calls : list (Z * Z * Z)) : state :=
  match calls with
  | [] => s
  | (tipTemp, tError, now) :: calls' =>
      detectRun (detectThermalRunaway s tipTemp tError now) calls'
  end.

(** A condition on the inputs of a run of calls, against one call (or the
    initial baseline) at temperature [temp0] and tick [time0]: every call
    of [calls] finds the temperature more than the threshold away from
    [temp0], or comes no later than the time limit after [time0]. *)
Fixpoint movesFrom (temp0 time0 : Z) (calls : list (Z * Z * Z)) : Prop :=
  match calls with
  | [] => True
  | (tipTemp, _, now) :: calls' =>
      (Z.abs (tipTemp - temp0) > THERMAL_RUNAWAY_TEMP_C cfg
       \/ now - time0 <= runawayTimeLimit)
      /\ movesFrom temp0 time0 calls'
  end.

(** The same against every call of the run: between any two calls that
    are more than the time limit apart, the temperature has moved by more
    than the threshold. *)
Fixpoint keepsMoving (calls : list (Z * Z * Z)) : Prop :=
  match calls with
  | [] => True
  | (tipTemp, _, now) :: calls' =>
      movesFrom tipTemp now calls' /\ keepsMoving calls'
  end.

(** The integral term as the spec words it, [ErrorFilter.average()]: the
    average of [tempError] once this iteration's error has been fed in. *)
Definition iTermSpec (s : state) (e : env) : Z :=
  history_average (PID_TIM_HZ cfg) (tempError (pidCompute s e).1.1).

End PIDThread.

(** The supply limit is a wattage, and ten times it is still an [int32_t]. *)
Definition supplyLimit_wf (e : env) : Prop :=
  0 <= supplyLimit e * 10 <= INT32_MAX.

(** Ten times the supply limit, as the supply ceiling computes it in
    [int32_t], is not negative. *)
Definition supplyProduct_nonneg (e : env) : Prop :=
  0 <= s32 (supplyLimit e * 10).

(** A call that leaves the heater without power. *)
Definition heaterOff (ev : event) : Prop :=
  match ev with
  | SetTipX10Watts x10Watts => x10Watts = 0
  | SetTipPWM pulse => pulse = 0
  | LogSystemState _ | ResetWatchdog => True
  end.

(** Every [ResetWatchdog] of a trace has a [SetTipX10Watts] before it, with
    no other watchdog reset and no [SetTipPWM] in between; [committed]
    tells whether such a commit is pending where the trace starts. *)
Fixpoint watchdogGuarded (committed : bool) (tr : list event) : bool :=
  match tr with
  | [] => true
  | SetTipX10Watts _ :: tr' => watchdogGuarded true tr'
  | LogSystemState _ :: tr' => watchdogGuarded committed tr'
  | SetTipPWM _ :: tr' => watchdogGuarded false tr'
  | ResetWatchdog :: tr' => committed && watchdogGuarded false tr'
  end.

Definition isResetWatchdog (ev : event) : bool :=
  match ev with ResetWatchdog => true | _ => false end.

(** ** Sample configurations and readings, for concrete runs *)

(** A linear stand-in for the thermal model. *)
Definition linearModel (tError : Z) : Z := 17 * tError.

(** A build without [SLEW_LIMIT] and without [DEBUG_UART_OUTPUT]. *)
Definition plainConfig : Config :=
  {| PID_TIM_HZ := 8;
     TICKS_100MS := 100;
     TICKS_SECOND := 1000;
     THERMAL_RUNAWAY_TEMP_C := 3;
     THERMAL_RUNAWAY_TIME_SEC := 20;
     SLEW_LIMIT := None;
     DEBUG_UART_OUTPUT := false;
     tempToX10Watts := linearModel |}.

(** The same with [SLEW_LIMIT] defined as 200 and the debug log compiled in. *)
Definition slewConfig : Config :=
  {| PID_TIM_HZ := 8;
     TICKS_100MS := 100;
     TICKS_SECOND := 1000;
     THERMAL_RUNAWAY_TEMP_C := 3;
     THERMAL_RUNAWAY_TIME_SEC := 20;
     SLEW_LIMIT := Some 200;
     DEBUG_UART_OUTPUT := true;
     tempToX10Watts := linearModel |}.

Definition noSettings (o : SettingsOptions) : Z := 0.

(** Keep-awake pulse of 0.5 W, wait and duration multipliers 4 and 1,
    power limit 30 W. *)
Definition userSettings (o : SettingsOptions) : Z :=
  match o with
  | KeepAwakePulse => 5
  | KeepAwakePulseWait => 4
  | KeepAwakePulseDuration => 1
  | PowerLimit => 30
  end.

(** A notified iteration: set point [target], tip at [tip] degrees, raw
    reading [raw], supply limit [supply], every tick reading [tick]; the
    tip can measure 500 degrees and the power history averages [avg]. *)
Definition reading (target tip raw avg supply tick : Z)
                   (st : SettingsOptions -> Z) : env :=
  {| ulTaskNotifyTake := 1;
     getTipInC := tip;
     currentTempTargetDegC := target;
     getTipMaxInC := 500;
     x10WattHistory_average := avg;
     tickRunaway := tick;
     tickPulseCheck := tick;
     tickPulseStart := tick;
     tickPulseFloor := tick;
     settings := st;
     getTipRawTemp := raw;
     powerSupplyWattageLimit := supply |}.

(** An iteration whose wait for the sample times out. *)
Definition timedOut (e : env) : env :=
  {| ulTaskNotifyTake := 0;
     getTipInC := getTipInC e;
     currentTempTargetDegC := currentTempTargetDegC e;
     getTipMaxInC := getTipMaxInC e;
     x10WattHistory_average := x10WattHistory_average e;
     tickRunaway := tickRunaway e;
     tickPulseCheck := tickPulseCheck e;
     tickPulseStart := tickPulseStart e;
     tickPulseFloor := tickPulseFloor e;
     settings := settings e;
     getTipRawTemp := getTipRawTemp e;
     powerSupplyWattageLimit := powerSupplyWattageLimit e |}.

(** Readings used in the concrete runs below. *)

(** Heating from 25 to 300 degrees on a 65 W supply. *)
Definition heatingReading : env := reading 300 25 1000 0 65 100 userSettings.
(** The same with the raw reading 10 counts below full scale. *)
Definition saturatedReading : env := reading 300 25 (0x7FFF - 10) 0 65 100 userSettings.
(** The same with the supply limit at -1 and no settings. *)
Definition negativeSupplyReading : env := reading 300 25 1000 0 (-1) 100 noSettings.
(** First iteration of a cold tip towards 100 degrees, empty power history. *)
Definition coldStart : env := reading 100 0 1000 0 0 0 noSettings.
(** A set point far above what is allowed. *)
Definition overTarget : env := reading 10000 25 1000 0 0 0 noSettings.
(** Heater off with a hot tip. *)
Definition offReading : env := reading 0 200 1000 0 0 0 noSettings.
(** Tip 100 degrees above the set point. *)
Definition overshootReading : env := reading 100 200 1000 0 0 0 noSettings.
(** The same with the raw reading at full scale. *)
Definition overshootSaturated : env := reading 100 200 0x7FFF 0 0 0 noSettings.
(** The same with the keep-awake pulse on, at a tick that opens a window. *)
Definition overshootPulse : env := reading 100 200 1000 0 0 10001 userSettings.
(** Requested power above a 30 W configured and a 65 W supply limit. *)
Definition highDemand : env := reading 450 25 1000 0 65 100 userSettings.

(** The initial state with the runaway flag raised. *)
Definition runawayState : state :=
  set_heaterThermalRunaway true (initState plainConfig).

(** A baseline of 25 degrees taken at tick 1000. *)
Definition stalledBaseline : state :=
  set_runawayBaseline 25 1000 (initState plainConfig).

(** Raw reading 10 counts below full scale, supply limit at -1. *)
Definition saturatedNegativeSupply : env :=
  reading 300 25 (0x7FFF - 10) 0 (-1) 100 noSettings.

(** The state left by a first iteration of heating. *)
Definition afterHeating : state :=
  (pidCycle plainConfig (initState plainConfig) heatingReading).1.

(** Three calls of the detector with the error at 275: the tip climbs from
    the baseline of 25 degrees to 40 and then 60 degrees, then rests. *)
Definition climbingCalls : list (Z * Z * Z) :=
  [(40, 275, 5000); (60, 275, 24000); (61, 275, 30000)].

(** ** Further vocabulary: repeated calls, ranges, tick sequences *)

Section PIDThreadRuns.

Variable cfg : Config.


(** [x10WattsOut] after the supply ceiling, where the block under
    [#ifdef SLEW_LIMIT] starts. *)
Definition beforeSlew (s : state) (e : env) (x10WattsOut : Z) : Z :=
  let s1 := pulseWindow cfg s e in
  supplyCeiling e
    (powerLimitCeiling e
       (runawayCutoff s1
          (adcCutoff e
             (pulseFloor s1 e x10WattsOut)))).

(** Where [SLEW_LIMIT] is defined: the step is not negative, the previous
    output is a non-negative [int32_t], the subtraction
    [x10WattsOut - x10WattsOutLast] does not leave [int32_t] for the request
    [x], and the supply limit is a wattage.  Nothing is asked of a build
    without [SLEW_LIMIT]. *)
Definition slewInRange (s : state) (e : env) (x : Z) : Prop :=
  match SLEW_LIMIT cfg with
  | None => True
  | Some limit =>
      0 <= limit
      /\ 0 <= x10WattsOutLast s <= INT32_MAX
      /\ INT32_MIN <= x - x10WattsOutLast s
      /\ supplyLimit_wf e
  end.

End PIDThreadRuns.

(** Every field of the state within the range of its C++ type, the stored
    set point at most 450 and the previous output not negative. *)
Definition state_typed (s : state) : Prop :=
  0 <= PIDTempTarget s <= 450
  /\ 0 <= tipTempCRunawayTemp s <= 65535
  /\ 0 <= runawaylastChangeTime s <= 4294967295
  /\ 0 <= lastPowerPulseStart s <= 4294967295
  /\ 0 <= lastPowerPulseEnd s <= 4294967295
  /\ 0 <= x10WattsOutLast s <= INT32_MAX.


(** The tick counts of a run of detector calls do not decrease, starting
    at or after [lo], and stay at or below [hi]. *)
Fixpoint ticksWithin (lo hi : Z) (calls : list (Z * Z * Z)) : Prop :=
  match calls with
  | [] => True
  | (_, _, now) :: calls' => lo <= now <= hi /\ ticksWithin now hi calls'
  end.

(** Two states with the same runaway baseline. *)
Definition sameBaseline (s s' : state) : Prop :=
  tipTempCRunawayTemp s' = tipTempCRunawayTemp s
  /\ runawaylastChangeTime s' = runawaylastChangeTime s.

(** Readings for the concrete runs of the further properties. *)

(** No stage of the chain acts; tick 100. *)
Definition plainReading : env := reading 300 25 1000 0 0 100 noSettings.
(** The state of a slew build whose previous output was 15 W. *)
Definition slewAt150 : state := set_x10WattsOutLast 150 (initState slewConfig).
(** A tip reading far beyond what 31 bits hold. *)
Definition wrappedReading : env := reading 100 4000000000 1000 0 0 0 noSettings.
(** The state left by an iteration that opened a pulse window. *)
Definition afterPulse : state :=
  (pidCycle plainConfig (initState plainConfig) overshootPulse).1.
(** Two detector calls on a tip that rests near the baseline of
    [stalledBaseline]: the later call at the time limit in the first list,
    one tick past it in the second. *)
Definition restingWithin : list (Z * Z * Z) := [(26, 275, 5000); (27, 275, 21000)].
Definition restingBeyond : list (Z * Z * Z) := [(26, 275, 5000); (27, 275, 21001)].

(** Heating on a supply limit of 300000000, whose tenfold leaves [int32_t]. *)
Definition overflowSupplyReading : env := reading 300 25 1000 0 300000000 100 noSettings.
(** The same with the raw reading 10 counts below full scale. *)
Definition saturatedOverflowSupply : env :=
  reading 300 25 (0x7FFF - 10) 0 300000000 100 noSettings.
(** Raw reading exactly 32 counts below full scale, nothing else acting. *)
Definition boundaryReading : env := reading 300 25 (0x7FFF - 32) 0 0 100 noSettings.
(** [highDemand] with the raw reading 10 counts below full scale. *)
Definition highDemandSaturated : env := reading 450 25 (0x7FFF - 10) 0 65 100 userSettings.
(** [highDemand] with the supply limit at -300000000. *)
Definition highDemandOverflow : env := reading 450 25 1000 0 (-300000000) 100 userSettings.
(** A tip above its set point on supply limits of -200 and 300000000. *)
Definition overshootLowSupply : env := reading 100 200 1000 0 (-200) 0 noSettings.
Definition overshootOverflowSupply : env := reading 100 200 1000 0 300000000 0 noSettings.
(** * Properties *)

(** ** Arithmetic of the conversions *)

Lemma u16_range x : 0 <= u16 x <= 65535.
Proof. unfold u16, wrapU. pose proof (Z.mod_pos_bound x (2 ^ 16)). lia. Qed.

Lemma u32_range x : 0 <= u32 x <= 4294967295.
Proof. unfold u32, wrapU. pose proof (Z.mod_pos_bound x (2 ^ 32)). lia. Qed.

Lemma s16_range x : INT16_MIN <= s16 x <= INT16_MAX.
Proof.
  unfold s16, wrapS, INT16_MIN, INT16_MAX.
  pose proof (Z.mod_pos_bound (x + 2 ^ (16 - 1)) (2 ^ 16)). lia.
Qed.

Lemma s32_range x : INT32_MIN <= s32 x <= INT32_MAX.
Proof.
  unfold s32, wrapS, INT32_MIN, INT32_MAX.
  pose proof (Z.mod_pos_bound (x + 2 ^ (32 - 1)) (2 ^ 32)). lia.
Qed.

Lemma u16_small x : 0 <= x <= 65535 -> u16 x = x.
Proof. intros H. unfold u16, wrapU. apply Z.mod_small. lia. Qed.

Lemma u32_small x : 0 <= x <= 4294967295 -> u32 x = x.
Proof. intros H. unfold u32, wrapU. apply Z.mod_small. lia. Qed.

Lemma s16_small x : INT16_MIN <= x <= INT16_MAX -> s16 x = x.
Proof.
  unfold s16, wrapS, INT16_MIN, INT16_MAX. intros H.
  rewrite Z.mod_small by lia. lia.
Qed.

Lemma s32_small x : INT32_MIN <= x <= INT32_MAX -> s32 x = x.
Proof.
  unfold s32, wrapS, INT32_MIN, INT32_MAX. intros H.
  rewrite Z.mod_small by lia. lia.
Qed.

Lemma gtb_true_iff (a b : Z) : (a >? b) = true <-> a > b.
Proof. rewrite Z.gtb_ltb, Z.ltb_lt. lia. Qed.

Lemma gtb_false_iff (a b : Z) : (a >? b) = false <-> a <= b.
Proof. rewrite Z.gtb_ltb, Z.ltb_ge. lia. Qed.

(** Case split on the first comparison of the goal, keeping the outcome as
    an arithmetic fact. *)
Ltac split_cmp :=
  match goal with
  | |- context [?a >? ?b] =>
      let H := fresh "Hcmp" in
      destruct (a >? b) eqn:H;
      [apply gtb_true_iff in H | apply gtb_false_iff in H]
  | |- context [?a <? ?b] =>
      let H := fresh "Hcmp" in
      destruct (a <? b) eqn:H;
      [apply Z.ltb_lt in H | apply Z.ltb_ge in H]
  | |- context [?a =? ?b] =>
      let H := fresh "Hcmp" in
      destruct (a =? b) eqn:H;
      [apply Z.eqb_eq in H | apply Z.eqb_neq in H]
  end.

(** ** The history keeps its invariant *)

Lemma sumZ_insert (l : list Z) (i : nat) (v : Z) :
  (i < length l)%nat ->
  sumZ (<[i := v]> l) = sumZ l - default 0 (l !! i) + v.
Proof.
  revert i. induction l as [| a l IH]; intros i Hi; cbn [length] in Hi; [lia |].
  destruct i as [| i]; cbn [sumZ fold_right].
  - cbn. lia.
  - change (<[S i := v]> (a :: l)) with (a :: <[i := v]> l).
    change ((a :: l) !! S i) with (l !! i).
    cbn [sumZ fold_right]. fold (sumZ (<[i := v]> l)). fold (sumZ l).
    rewrite IH by lia. lia.
Qed.

Lemma history_init_ok (size : nat) :
  (0 < size)%nat -> history_ok size (history_init size).
Proof.
  intros Hpos. unfold history_ok, history_init. cbn.
  split; [apply length_replicate |]. split; [exact Hpos |].
  clear Hpos. induction size as [| n IH]; cbn; [reflexivity | exact IH].
Qed.

Lemma history_update_ok (size : nat) (h : history) (val : Z) :
  history_ok size h -> history_ok size (history_update size h val).
Proof.
  intros (Hlen & Hloc & Hsum). unfold history_ok, history_update. cbn.
  split; [rewrite length_insert; exact Hlen |].
  split; [apply Nat.mod_upper_bound; lia |].
  rewrite sumZ_insert by lia. rewrite Hsum. reflexivity.
Qed.

Section Properties.

Variable cfg : Config.

(** ** The set point and the error *)

(** C7. For a nonzero set point the target the error is computed from is
    the least of the set point, 450 and what the tip can measure: it is the
    value of [clampTarget], it is what the iteration stores in
    [PIDTempTarget], and the error handed on is the saturated difference
    between it and the tip temperature, plus one.  A set point of 10000
    with a tip that measures up to 500 gives 450. *)
Theorem clampTarget_is_min (s : state) (e : env) :
  tempTarget e <> 0 ->
  let t := Z.min (Z.min (tempTarget e) 450) (tipMaxInC e) in
  clampTarget e = t
  /\ PIDTempTarget (pidCompute cfg s e).1.1 = t
  /\ (pidCompute cfg s e).2 = saturate16 (s32 (u32 (t - currentTipTempInC e + 1)))
  /\ (tempTarget e = 10000 -> tipMaxInC e = 500 -> clampTarget e = 450).
Proof.
  intros Hnz t.
  assert (Ht : clampTarget e = t).
  { subst t. unfold clampTarget.
    destruct (tempTarget e >? 450) eqn:H450;
      [apply gtb_true_iff in H450 | apply gtb_false_iff in H450];
      split_cmp; lia. }
  assert (Hne : (tempTarget e =? 0) = false) by (apply Z.eqb_neq; exact Hnz).
  unfold pidCompute. rewrite Hne. cbn.
  unfold tempErrorOf. rewrite Ht.
  repeat split; try reflexivity.
  intros H1 H2. try subst t. rewrite H1, H2. reflexivity.
Qed.

(** C3. With a set point of 0 the branch of the power calculation is
    skipped: the power handed to the clamp chain is 0 whatever the tip
    temperature, the error handed to the runaway detector is 0, and a
    notified iteration is the clamp chain run on 0 after the detector has
    been called on the tip temperature and the error 0. *)
Theorem zero_target_requests_nothing (s : state) (e : env) :
  tempTarget e = 0 ->
  (pidCompute cfg s e).1.2 = 0
  /\ (pidCompute cfg s e).2 = 0
  /\ (notified e = true ->
      pidCycle cfg s e =
        setOutputx10WattsViaFilters cfg
          (detectThermalRunaway cfg (set_PIDTempTarget 0 s)
                                (currentTipTempInC e) 0 (tickRunaway e))
          e 0).
Proof.
  intros Hz.
  assert (Hc : pidCompute cfg s e = (set_PIDTempTarget 0 s, 0, 0)).
  { unfold pidCompute. rewrite Hz. reflexivity. }
  repeat split; try (rewrite Hc; reflexivity).
  intros Hn. unfold pidCycle. rewrite Hn, Hc. reflexivity.
Qed.

(** ** The sampler timeout *)

(** C8. When the wait for the sample times out, the iteration makes one
    call, [setTipPWM(0)], and the state after it is the state before it: the
    error history (buffer, sum and position), the runaway baseline and
    flag, and the two timestamps of the pulse window are those it found. *)
Theorem timeout_leaves_state (s : state) (e : env) :
  notified e = false ->
  let s' := (pidCycle cfg s e).1 in
  (pidCycle cfg s e).2 = [SetTipPWM 0]
  /\ s' = s
  /\ buf (tempError s') = buf (tempError s)
  /\ sum (tempError s') = sum (tempError s)
  /\ tipTempCRunawayTemp s' = tipTempCRunawayTemp s
  /\ runawaylastChangeTime s' = runawaylastChangeTime s
  /\ heaterThermalRunaway s' = heaterThermalRunaway s
  /\ lastPowerPulseStart s' = lastPowerPulseStart s
  /\ lastPowerPulseEnd s' = lastPowerPulseEnd s.
Proof.
  intros Hn. unfold pidCycle. rewrite Hn. cbn. repeat split.
Qed.

(** ** The watchdog *)

Lemma setOutput_trace (s : state) (e : env) (x : Z) :
  (setOutputx10WattsViaFilters cfg s e x).2 =
    SetTipX10Watts (filteredOutput cfg s e x)
      :: (if DEBUG_UART_OUTPUT cfg
          then [LogSystemState (filteredOutput cfg s e x)] else [])
      ++ [ResetWatchdog].
Proof. reflexivity. Qed.

Lemma pidCycle_notified (s : state) (e : env) :
  notified e = true ->
  pidCycle cfg s e =
    setOutputx10WattsViaFilters cfg
      (detectThermalRunaway cfg (pidCompute cfg s e).1.1 (currentTipTempInC e)
                            (pidCompute cfg s e).2 (tickRunaway e))
      e (pidCompute cfg s e).1.2.
Proof.
  intros Hn. unfold pidCycle. rewrite Hn.
  destruct (pidCompute cfg s e) as [[s1 x] t]. reflexivity.
Qed.

Lemma pidRun_cons (s : state) (e : env) (es : list env) :
  pidRun cfg s (e :: es) =
    ((pidRun cfg (pidCycle cfg s e).1 es).1,
     (pidCycle cfg s e).2 ++ (pidRun cfg (pidCycle cfg s e).1 es).2).
Proof.
  cbn [pidRun]. destruct (pidCycle cfg s e) as [s1 tr1]. cbn [fst snd].
  destruct (pidRun cfg s1 es) as [s2 tr2]. reflexivity.
Qed.

Lemma pidCycle_guarded (b : bool) (s : state) (e : env) (tr : list event) :
  watchdogGuarded b ((pidCycle cfg s e).2 ++ tr) = watchdogGuarded false tr.
Proof.
  destruct (notified e) eqn:Hn.
  - rewrite (pidCycle_notified _ _ Hn), setOutput_trace.
    destruct (DEBUG_UART_OUTPUT cfg); reflexivity.
  - unfold pidCycle. rewrite Hn. reflexivity.
Qed.

Lemma pidCycle_resets (s : state) (e : env) :
  length (List.filter isResetWatchdog (pidCycle cfg s e).2) =
    if notified e then 1%nat else 0%nat.
Proof.
  destruct (notified e) eqn:Hn.
  - rewrite (pidCycle_notified _ _ Hn), setOutput_trace.
    destruct (DEBUG_UART_OUTPUT cfg); reflexivity.
  - unfold pidCycle. rewrite Hn. reflexivity.
Qed.

(** C9. The only call of [resetWatchdog] is the last statement of
    [setOutputx10WattsViaFilters], after [setTipX10Watts]: a notified
    iteration commits the filtered value, logs it where the debug output is
    compiled in, and then resets the watchdog; an iteration that times out
    calls [setTipPWM(0)] and nothing else, so does not reset the watchdog.
    Over any number of iterations, from any state and for the task from
    its start, every watchdog reset follows a commit of its own, and there
    are as many resets as notified iterations. *)
Theorem watchdog_only_after_commit (s : state) (e : env) (es : list env) :
  (pidCycle cfg s e).2 =
    (if notified e
     then let out := filteredOutput cfg
                       (detectThermalRunaway cfg (pidCompute cfg s e).1.1
                          (currentTipTempInC e) (pidCompute cfg s e).2
                          (tickRunaway e))
                       e (pidCompute cfg s e).1.2 in
          SetTipX10Watts out
            :: (if DEBUG_UART_OUTPUT cfg then [LogSystemState out] else [])
            ++ [ResetWatchdog]
     else [SetTipPWM 0])
  /\ (if notified e then True else ~ In ResetWatchdog (pidCycle cfg s e).2)
  /\ watchdogGuarded false (pidRun cfg s es).2 = true
  /\ watchdogGuarded false (startPIDTask cfg es).2 = true
  /\ length (List.filter isResetWatchdog (pidRun cfg s es).2) =
       length (List.filter notified es).
Proof.
  assert (Hrun : forall b es' s', watchdogGuarded b (pidRun cfg s' es').2 = true).
  { intros b es'. revert b. induction es' as [| e' es' IH]; intros b s'.
    - reflexivity.
    - rewrite pidRun_cons. cbn [snd]. rewrite pidCycle_guarded. apply IH. }
  split; [| split; [| split; [| split]]].
  - destruct (notified e) eqn:Hn.
    + rewrite (pidCycle_notified _ _ Hn). apply setOutput_trace.
    + unfold pidCycle. rewrite Hn. reflexivity.
  - destruct (notified e) eqn:Hn; [exact I |].
    unfold pidCycle. rewrite Hn. cbn. intros [H | []]. discriminate H.
  - apply Hrun.
  - unfold startPIDTask.
    pose proof (Hrun true es (initState cfg)) as Hstart.
    destruct (pidRun cfg (initState cfg) es) as [s1 tr1]. exact Hstart.
  - clear e Hrun. revert s. induction es as [| e' es' IH]; intros s.
    + reflexivity.
    + rewrite pidRun_cons. cbn [snd].
      rewrite List.filter_app, length_app, pidCycle_resets, IH.
      cbn [List.filter]. destruct (notified e'); reflexivity.
Qed.

(** ** The clamp chain *)

Lemma pulseWindow_flag (s : state) (e : env) :
  heaterThermalRunaway (pulseWindow cfg s e) = heaterThermalRunaway s.
Proof. unfold pulseWindow. repeat split_cmp; reflexivity. Qed.

Lemma pulseWindow_last (s : state) (e : env) :
  x10WattsOutLast (pulseWindow cfg s e) = x10WattsOutLast s.
Proof. unfold pulseWindow. repeat split_cmp; reflexivity. Qed.

Lemma pulseFloor_ge (s : state) (e : env) (x : Z) : x <= pulseFloor s e x.
Proof.
  unfold pulseFloor.
  destruct (getSettingValue e KeepAwakePulse =? 0); [lia |].
  destruct (x <? getSettingValue e KeepAwakePulse) eqn:Hlt; cbn [andb]; [| lia].
  apply Z.ltb_lt in Hlt. split_cmp; lia.
Qed.

Lemma powerLimitCeiling_nonpos (e : env) (x : Z) :
  x <= 0 -> powerLimitCeiling e x = x.
Proof.
  intros Hx. unfold powerLimitCeiling.
  pose proof (u16_range (settings e PowerLimit)) as Hr.
  fold (getSettingValue e PowerLimit) in Hr.
  destruct (getSettingValue e PowerLimit =? 0); cbn [negb andb]; [reflexivity |].
  split_cmp; [lia | reflexivity].
Qed.

Lemma supplyCeiling_le (e : env) (x : Z) : supplyCeiling e x <= x.
Proof.
  unfold supplyCeiling.
  destruct (supplyLimit e =? 0); cbn [negb andb]; [lia |].
  split_cmp; lia.
Qed.

Lemma supplyCeiling_below (e : env) (x : Z) :
  supplyLimit_wf e -> x <= 0 -> supplyCeiling e x = x.
Proof.
  unfold supplyLimit_wf. intros Hwf Hx. unfold supplyCeiling.
  rewrite s32_small by (unfold INT32_MIN; lia).
  destruct (supplyLimit e =? 0); cbn [negb andb]; [reflexivity |].
  split_cmp; [lia | reflexivity].
Qed.

Lemma supplyLimit_wf_product (e : env) :
  supplyLimit_wf e -> supplyProduct_nonneg e.
Proof.
  unfold supplyLimit_wf, supplyProduct_nonneg. intros Hwf.
  rewrite s32_small by (unfold INT32_MIN; lia). lia.
Qed.

Lemma supplyLimit_range_product (e : env) :
  0 <= supplyLimit e <= 214748364 -> supplyProduct_nonneg e.
Proof.
  intros Hr. apply supplyLimit_wf_product. unfold supplyLimit_wf, INT32_MAX. lia.
Qed.

Lemma supplyCeiling_zero (e : env) :
  supplyProduct_nonneg e -> supplyCeiling e 0 = 0.
Proof.
  unfold supplyProduct_nonneg. intros Hp. unfold supplyCeiling.
  destruct (supplyLimit e =? 0); cbn [negb andb]; [reflexivity |].
  split_cmp; [lia | reflexivity].
Qed.

Lemma slewLimit_zero (s : state) :
  slewLimit_wf cfg -> state_wf s -> slewLimit cfg s 0 = 0.
Proof.
  unfold slewLimit_wf, state_wf, slewLimit.
  destruct (SLEW_LIMIT cfg) as [limit |]; [| reflexivity].
  intros Hl Hs. cbn [Z.sub Z.opp].
  destruct (s32 (0 - x10WattsOutLast s) >? limit) eqn:Hgt; [| reflexivity].
  apply gtb_true_iff in Hgt.
  destruct (Z.eq_dec (x10WattsOutLast s) INT32_MIN) as [Hmin | Hmin].
  - rewrite Hmin in Hgt. vm_compute in Hgt. destruct limit; discriminate || lia.
  - rewrite s32_small in Hgt by (unfold INT32_MIN, INT32_MAX in *; lia).
    rewrite s32_small by (unfold INT32_MIN, INT32_MAX in *; lia).
    split_cmp; lia.
Qed.

Lemma slewLimit_nonneg (s : state) (x limit : Z) :
  SLEW_LIMIT cfg = Some limit -> 0 <= slewLimit cfg s x.
Proof. intros Hl. unfold slewLimit. rewrite Hl. cbv zeta. repeat split_cmp; lia. Qed.

(** Once a stage has forced 0, the later stages leave it. *)
Lemma forced_zero_stays (s : state) (e : env) :
  slewLimit_wf cfg -> state_wf s -> supplyProduct_nonneg e ->
  slewLimit cfg s (supplyCeiling e (powerLimitCeiling e 0)) = 0.
Proof.
  intros Hl Hs He.
  rewrite powerLimitCeiling_nonpos by lia.
  rewrite supplyCeiling_zero by assumption.
  apply slewLimit_zero; assumption.
Qed.

Lemma filteredOutput_adc (s : state) (e : env) (x : Z) :
  tipRawTemp e > 0x7FFF - 32 ->
  slewLimit_wf cfg -> state_wf s -> supplyProduct_nonneg e ->
  filteredOutput cfg s e x = 0.
Proof.
  intros Hraw Hl Hs He. unfold filteredOutput.
  assert (Hadc : forall y, adcCutoff e y = 0).
  { intros y. unfold adcCutoff. split_cmp; [reflexivity | lia]. }
  rewrite Hadc.
  assert (Hrun : runawayCutoff (pulseWindow cfg s e) 0 = 0).
  { unfold runawayCutoff. destruct (heaterThermalRunaway _); reflexivity. }
  rewrite Hrun. apply forced_zero_stays; try assumption.
  unfold state_wf. rewrite pulseWindow_last. exact Hs.
Qed.

Lemma filteredOutput_runaway (s : state) (e : env) (x : Z) :
  heaterThermalRunaway s = true ->
  slewLimit_wf cfg -> state_wf s -> supplyProduct_nonneg e ->
  filteredOutput cfg s e x = 0.
Proof.
  intros Hflag Hl Hs He. unfold filteredOutput.
  assert (Hrun : forall y, runawayCutoff (pulseWindow cfg s e) y = 0).
  { intros y. unfold runawayCutoff. rewrite pulseWindow_flag, Hflag. reflexivity. }
  rewrite Hrun. apply forced_zero_stays; try assumption.
  unfold state_wf. rewrite pulseWindow_last. exact Hs.
Qed.

(** What the steps before the clamp chain do to the flag and to
    [x10WattsOutLast]. *)
Lemma pidCompute_flag (s : state) (e : env) :
  heaterThermalRunaway (pidCompute cfg s e).1.1 = heaterThermalRunaway s.
Proof. unfold pidCompute. split_cmp; reflexivity. Qed.

Lemma pidCompute_last (s : state) (e : env) :
  x10WattsOutLast (pidCompute cfg s e).1.1 = x10WattsOutLast s.
Proof. unfold pidCompute. split_cmp; reflexivity. Qed.

Lemma detect_last (s : state) (tipTemp tError now : Z) :
  x10WattsOutLast (detectThermalRunaway cfg s tipTemp tError now) = x10WattsOutLast s.
Proof. unfold detectThermalRunaway. repeat split_cmp; reflexivity. Qed.

Lemma detect_flag_kept (s : state) (tipTemp tError now : Z) :
  heaterThermalRunaway s = true ->
  heaterThermalRunaway (detectThermalRunaway cfg s tipTemp tError now) = true.
Proof.
  intros Hflag. unfold detectThermalRunaway.
  repeat split_cmp; cbn; try assumption; reflexivity.
Qed.

Lemma setOutput_flag (s : state) (e : env) (x : Z) :
  heaterThermalRunaway (setOutputx10WattsViaFilters cfg s e x).1 = heaterThermalRunaway s.
Proof.
  unfold setOutputx10WattsViaFilters. cbn [fst].
  destruct (SLEW_LIMIT cfg); cbn; apply pulseWindow_flag.
Qed.

Lemma setOutput_last (s : state) (e : env) (x : Z) :
  x10WattsOutLast (setOutputx10WattsViaFilters cfg s e x).1 =
    match SLEW_LIMIT cfg with
    | Some _ => filteredOutput cfg s e x
    | None => x10WattsOutLast s
    end.
Proof.
  unfold setOutputx10WattsViaFilters. cbn [fst].
  destruct (SLEW_LIMIT cfg); cbn; [reflexivity | apply pulseWindow_last].
Qed.

Lemma pidCycle_flag_kept (s : state) (e : env) :
  heaterThermalRunaway s = true -> heaterThermalRunaway (pidCycle cfg s e).1 = true.
Proof.
  intros Hflag. destruct (notified e) eqn:Hn.
  - rewrite (pidCycle_notified _ _ Hn), setOutput_flag.
    apply detect_flag_kept. rewrite pidCompute_flag. exact Hflag.
  - unfold pidCycle. rewrite Hn. exact Hflag.
Qed.

Lemma trace_off (out : Z) :
  out = 0 ->
  Forall heaterOff
    (SetTipX10Watts out
       :: (if DEBUG_UART_OUTPUT cfg then [LogSystemState out] else [])
       ++ [ResetWatchdog]).
Proof.
  intros ->. destruct (DEBUG_UART_OUTPUT cfg); repeat constructor.
Qed.

(** *** [x10WattsOutLast] stays an [int32_t] *)

Lemma powerLimitCeiling_le (e : env) (x : Z) : powerLimitCeiling e x <= x.
Proof.
  unfold powerLimitCeiling.
  destruct (getSettingValue e PowerLimit =? 0); cbn [negb andb]; [lia |].
  split_cmp; lia.
Qed.

Lemma chain_upper (s : state) (e : env) (x : Z) :
  x <= INT32_MAX ->
  supplyCeiling e
    (powerLimitCeiling e (runawayCutoff s (adcCutoff e (pulseFloor s e x))))
  <= INT32_MAX.
Proof.
  intros Hx.
  etransitivity; [apply supplyCeiling_le |].
  etransitivity; [apply powerLimitCeiling_le |].
  assert (Hfloor : pulseFloor s e x <= INT32_MAX).
  { unfold pulseFloor.
    pose proof (u16_range (settings e KeepAwakePulse)) as Hr.
    fold (getSettingValue e KeepAwakePulse) in Hr.
    destruct (getSettingValue e KeepAwakePulse =? 0); [exact Hx |].
    destruct (_ && _); [unfold INT32_MAX; lia | exact Hx]. }
  unfold runawayCutoff, adcCutoff.
  destruct (heaterThermalRunaway s); [unfold INT32_MAX; lia |].
  destruct (tipRawTemp e >? 0x7FFF - 32); [unfold INT32_MAX; lia | exact Hfloor].
Qed.

Lemma filteredOutput_int32 (s : state) (e : env) (x limit : Z) :
  SLEW_LIMIT cfg = Some limit -> x <= INT32_MAX ->
  INT32_MIN <= filteredOutput cfg s e x <= INT32_MAX.
Proof.
  intros Hl Hx. split.
  - pose proof (slewLimit_nonneg (pulseWindow cfg s e)
                  (supplyCeiling e (powerLimitCeiling e
                     (runawayCutoff (pulseWindow cfg s e)
                        (adcCutoff e (pulseFloor (pulseWindow cfg s e) e x)))))
                  limit Hl) as Hnn.
    unfold filteredOutput, INT32_MIN. lia.
  - pose proof (chain_upper (pulseWindow cfg s e) e x Hx) as Hup.
    unfold filteredOutput, slewLimit. rewrite Hl.
    pose proof (s32_range (x10WattsOutLast (pulseWindow cfg s e) + limit)) as Hr.
    destruct (s32 _ >? limit); split_cmp; unfold INT32_MAX in *; lia.
Qed.

Lemma pidCompute_request_le (s : state) (e : env) :
  (pidCompute cfg s e).1.2 <= INT32_MAX.
Proof.
  unfold pidCompute. split_cmp; cbn [fst snd].
  - unfold INT32_MAX. lia.
  - apply s32_range.
Qed.

Lemma initState_wf : state_wf (initState cfg).
Proof. unfold state_wf, initState, INT32_MIN, INT32_MAX. cbn. lia. Qed.

Lemma pidCycle_wf (s : state) (e : env) :
  state_wf s -> state_wf (pidCycle cfg s e).1.
Proof.
  intros Hs. destruct (notified e) eqn:Hn.
  - rewrite (pidCycle_notified _ _ Hn). unfold state_wf. rewrite setOutput_last.
    destruct (SLEW_LIMIT cfg) as [limit |] eqn:Hl.
    + apply (filteredOutput_int32 _ _ _ limit Hl), pidCompute_request_le.
    + rewrite detect_last, pidCompute_last. exact Hs.
  - unfold pidCycle. rewrite Hn. exact Hs.
Qed.

Lemma pidRun_wf (es : list env) (s : state) :
  state_wf s -> state_wf (pidRun cfg s es).1.
Proof.
  revert s. induction es as [| e es' IH]; intros s Hs; [exact Hs |].
  rewrite pidRun_cons. cbn [fst]. apply IH, pidCycle_wf, Hs.
Qed.

(** The error history keeps the invariant over an iteration, and what is
    pushed into it is a 16-bit value. *)
Lemma saturate16_range (x : Z) : INT16_MIN <= saturate16 x <= INT16_MAX.
Proof.
  unfold saturate16, INT16_MIN, INT16_MAX.
  destruct (x >? 32767) eqn:Hhi;
    [apply gtb_true_iff in Hhi | apply gtb_false_iff in Hhi];
    split_cmp; lia.
Qed.

Lemma pidCycle_tempError (s : state) (e : env) :
  tempError (pidCycle cfg s e).1 =
    if notified e && negb (tempTarget e =? 0)
    then history_update (PID_TIM_HZ cfg) (tempError s) (tempErrorOf e)
    else tempError s.
Proof.
  destruct (notified e) eqn:Hn; cbn [andb].
  - rewrite (pidCycle_notified _ _ Hn).
    assert (Hout : forall s0 x,
              tempError (setOutputx10WattsViaFilters cfg s0 e x).1 = tempError s0).
    { intros s0 x. unfold setOutputx10WattsViaFilters, pulseWindow. cbn [fst].
      destruct (SLEW_LIMIT cfg); repeat split_cmp; reflexivity. }
    assert (Hdet : forall s0 t x n,
              tempError (detectThermalRunaway cfg s0 t x n) = tempError s0).
    { intros s0 t x n. unfold detectThermalRunaway. repeat split_cmp; reflexivity. }
    rewrite Hout, Hdet. unfold pidCompute.
    destruct (tempTarget e =? 0); reflexivity.
  - unfold pidCycle. rewrite Hn. reflexivity.
Qed.

Lemma pidCycle_history_ok (s : state) (e : env) :
  history_ok (PID_TIM_HZ cfg) (tempError s) ->
  history_ok (PID_TIM_HZ cfg) (tempError (pidCycle cfg s e).1).
Proof.
  intros Hok. rewrite pidCycle_tempError.
  destruct (notified e && negb (tempTarget e =? 0));
    [apply history_update_ok |]; exact Hok.
Qed.

(** Every state the task reaches is well-typed. *)
Lemma startPIDTask_wf (es : list env) : state_wf (startPIDTask cfg es).1.
Proof.
  unfold startPIDTask.
  pose proof (pidRun_wf es (initState cfg) initState_wf) as Hwf.
  destruct (pidRun cfg (initState cfg) es) as [s tr]. exact Hwf.
Qed.

(** *** The two cutoffs *)

Lemma pidCycle_off (s : state) (e : env) :
  (forall x, filteredOutput cfg
               (detectThermalRunaway cfg (pidCompute cfg s e).1.1
                  (currentTipTempInC e) (pidCompute cfg s e).2 (tickRunaway e))
               e x = 0) ->
  (pidCycle cfg s e).2 =
    (if notified e
     then SetTipX10Watts 0
            :: (if DEBUG_UART_OUTPUT cfg then [LogSystemState 0] else [])
            ++ [ResetWatchdog]
     else [SetTipPWM 0]).
Proof.
  intros Hout. destruct (notified e) eqn:Hn.
  - rewrite (pidCycle_notified _ _ Hn), setOutput_trace, Hout. reflexivity.
  - unfold pidCycle. rewrite Hn. reflexivity.
Qed.

(** C5, as amended.  When the raw tip reading is above [0x7FFF - 32],
    that is fewer than 32 counts below full scale, the clamp chain turns
    every requested power into 0, whatever the runaway flag, the settings
    and the pulse window, provided ten times the supply wattage limit, as
    the supply ceiling computes it in [int32_t], is not negative; the
    iteration then commits 0.  That product is not negative for every
    limit from 0 to 214748364.  [0x7FFF - 10] is such a reading;
    [0x7FFF - 32] is not, and at such a reading or below the cutoff leaves
    the value as it is.  The slew step and [x10WattsOutLast] are taken at
    their types, as they are in every state the task reaches. *)
Theorem adc_saturation_cuts_power (s : state) (e : env) (x : Z) :
  (tipRawTemp e > 0x7FFF - 32 ->
   slewLimit_wf cfg -> state_wf s -> supplyProduct_nonneg e ->
   filteredOutput cfg s e x = 0
   /\ (pidCycle cfg s e).2 =
        (if notified e
         then SetTipX10Watts 0
                :: (if DEBUG_UART_OUTPUT cfg then [LogSystemState 0] else [])
                ++ [ResetWatchdog]
         else [SetTipPWM 0]))
  /\ (tipRawTemp e <= 0x7FFF - 32 -> adcCutoff e x = x)
  /\ (getTipRawTemp e = 0x7FFF - 10 -> tipRawTemp e > 0x7FFF - 32)
  /\ (getTipRawTemp e = 0x7FFF - 32 -> tipRawTemp e <= 0x7FFF - 32)
  /\ (0 <= supplyLimit e <= 214748364 -> supplyProduct_nonneg e).
Proof.
  split; [| split; [| split; [| split]]].
  - intros Hraw Hl Hs He. split.
    + apply filteredOutput_adc; assumption.
    + apply pidCycle_off. intros y. apply filteredOutput_adc; try assumption.
      unfold state_wf. rewrite detect_last, pidCompute_last. exact Hs.
  - intros Hraw. unfold adcCutoff. apply gtb_false_iff in Hraw.
    rewrite Hraw. reflexivity.
  - intros Hr. unfold tipRawTemp. rewrite Hr. reflexivity.
  - intros Hr. unfold tipRawTemp. rewrite Hr. intros Hgt. discriminate Hgt.
  - apply supplyLimit_range_product.
Qed.

(** C1, as amended.  Nothing in an iteration clears the runaway flag: set
    before a run of iterations, it is set after it.  With the flag set,
    every call such a run makes to the heater driver carries the power 0,
    for every requested power and every value of the settings, provided
    that ten times the supply wattage limit read by each iteration, as the
    supply ceiling computes it in [int32_t], is not negative; it is not
    negative for every limit from 0 to 214748364.  The slew step and
    [x10WattsOutLast] are taken at their types, as they are in every state
    the task reaches. *)
Theorem runaway_flag_is_latched (s : state) (es : list env) :
  heaterThermalRunaway s = true ->
  heaterThermalRunaway (pidRun cfg s es).1 = true
  /\ (slewLimit_wf cfg -> state_wf s -> Forall supplyProduct_nonneg es ->
      Forall heaterOff (pidRun cfg s es).2)
  /\ (forall e, 0 <= supplyLimit e <= 214748364 -> supplyProduct_nonneg e).
Proof.
  revert s. induction es as [| e es' IH]; intros s Hflag.
  - split; [exact Hflag |].
    split; [intros; constructor | exact supplyLimit_range_product].
  - rewrite pidRun_cons. cbn [fst snd].
    destruct (IH (pidCycle cfg s e).1 (pidCycle_flag_kept s e Hflag))
      as (IH1 & IH2 & _).
    split; [exact IH1 |]. split; [| exact supplyLimit_range_product].
    intros Hl Hs Hes. inversion Hes as [| e0 es0 He Hes']; subst.
    apply Forall_app. split.
    + rewrite pidCycle_off.
      * destruct (notified e); [apply trace_off; reflexivity | repeat constructor].
      * intros y. apply filteredOutput_runaway; try assumption.
        -- apply detect_flag_kept. rewrite pidCompute_flag. exact Hflag.
        -- unfold state_wf. rewrite detect_last, pidCompute_last. exact Hs.
    + apply IH2; try assumption. apply pidCycle_wf, Hs.
Qed.

(** *** The two ceilings *)

Lemma filteredOutput_beforeSlew (s : state) (e : env) (x : Z) :
  filteredOutput cfg s e x = slewLimit cfg (pulseWindow cfg s e) (beforeSlew cfg s e x).
Proof. reflexivity. Qed.

(** C6, as amended.  With both limits nonzero and a value above ten times
    each of them reaching the configured ceiling, that ceiling followed by
    the supply ceiling leaves the smaller of the two products, where ten
    times the supply limit is the [int32_t] product the code computes;
    when that product fits [int32_t] the result is ten times the smaller
    limit, and not ten times the larger one when the limits differ.  In
    the chain, a requested power above both products reaches the ceilings
    as such a value when neither cutoff fires, whatever the keep-awake
    floor does, and the value after the two ceilings is then that smaller
    product, which a build without the slew limiter commits.  When a
    cutoff fires, 0 reaches the ceilings and the value after them is 0, or
    the supply product if that is negative. *)
Theorem ceilings_give_smaller_limit (s : state) (e : env) (x : Z) :
  let configured := getSettingValue e PowerLimit in
  let supply := supplyLimit e in
  configured <> 0 -> supply <> 0 ->
  x > configured * 10 -> x > s32 (supply * 10) ->
  supplyCeiling e (powerLimitCeiling e x)
    = Z.min (configured * 10) (s32 (supply * 10))
  /\ (INT32_MIN <= supply * 10 <= INT32_MAX ->
      supplyCeiling e (powerLimitCeiling e x) = Z.min configured supply * 10
      /\ (configured <> supply ->
          supplyCeiling e (powerLimitCeiling e x) <> Z.max configured supply * 10))
  /\ (tipRawTemp e <= 0x7FFF - 32 -> heaterThermalRunaway s = false ->
      beforeSlew cfg s e x = Z.min (configured * 10) (s32 (supply * 10))
      /\ (SLEW_LIMIT cfg = None ->
          filteredOutput cfg s e x = Z.min (configured * 10) (s32 (supply * 10))))
  /\ (tipRawTemp e > 0x7FFF - 32 \/ heaterThermalRunaway s = true ->
      beforeSlew cfg s e x = Z.min 0 (s32 (supply * 10))).
Proof.
  intros configured supply Hc Hs Hxc Hxs.
  assert (Hceil : forall y, x <= y ->
            supplyCeiling e (powerLimitCeiling e y)
              = Z.min (configured * 10) (s32 (supply * 10))).
  { intros y Hy. unfold supplyCeiling, powerLimitCeiling.
    fold configured. fold supply.
    pose proof Hc as Hc'. pose proof Hs as Hs'.
    apply Z.eqb_neq in Hc', Hs'. rewrite Hc', Hs'. cbn [negb andb].
    destruct (y >? configured * 10) eqn:H1;
      [apply gtb_true_iff in H1 | apply gtb_false_iff in H1; lia].
    split_cmp; lia. }
  split; [| split; [| split]].
  - apply Hceil. lia.
  - intros Hfit. rewrite Hceil by lia.
    rewrite (s32_small (supply * 10)) by exact Hfit. split; [lia |].
    intros Hne. lia.
  - intros Hraw Hflag.
    assert (Hb : beforeSlew cfg s e x = Z.min (configured * 10) (s32 (supply * 10))).
    { unfold beforeSlew, runawayCutoff. rewrite pulseWindow_flag, Hflag.
      unfold adcCutoff. apply gtb_false_iff in Hraw. rewrite Hraw.
      apply Hceil, pulseFloor_ge. }
    split; [exact Hb |].
    intros Hslew. rewrite filteredOutput_beforeSlew. unfold slewLimit.
    rewrite Hslew. exact Hb.
  - intros Hcut.
    assert (Hzero : runawayCutoff (pulseWindow cfg s e)
                      (adcCutoff e (pulseFloor (pulseWindow cfg s e) e x)) = 0).
    { unfold runawayCutoff. rewrite pulseWindow_flag.
      destruct (heaterThermalRunaway s); [reflexivity |].
      destruct Hcut as [Hraw | Hflag]; [| discriminate Hflag].
      unfold adcCutoff. apply gtb_true_iff in Hraw. rewrite Hraw. reflexivity. }
    unfold beforeSlew. rewrite Hzero.
    rewrite powerLimitCeiling_nonpos by lia.
    unfold supplyCeiling. fold supply.
    apply Z.eqb_neq in Hs. rewrite Hs. cbn [negb andb].
    split_cmp; lia.
Qed.

(** *** Negative requests *)

(** C10, as amended.  Without the slew limiter a negative requested power
    reaches [setTipX10Watts] unchanged when no stage acts on it: the
    keep-awake floor is off or its window has closed, the raw reading is
    at most [0x7FFF - 32], the runaway flag is clear, and the supply limit
    is 0 or ten times it, as the supply ceiling computes it in [int32_t],
    is not below the request.  Stage by stage, for a negative value: the
    keep-awake floor raises it to the pulse level inside its window and
    leaves it otherwise; each cutoff replaces it by 0 when it fires and
    leaves it otherwise; the configured ceiling never changes it; the
    supply ceiling never raises it.  No stage outside the slew block floors
    at 0; with the slew limiter compiled in the committed value is never
    negative. *)
Theorem negative_request_without_slew (s : state) (e : env) (x : Z) :
  x < 0 ->
  let s1 := pulseWindow cfg s e in
  let level := getSettingValue e KeepAwakePulse in
  (SLEW_LIMIT cfg = None ->
   level = 0 \/ lastPowerPulseEnd s1 <= u32 (tickPulseFloor e) ->
   tipRawTemp e <= 0x7FFF - 32 ->
   heaterThermalRunaway s = false ->
   supplyLimit e = 0 \/ x <= s32 (supplyLimit e * 10) ->
   filteredOutput cfg s e x = x
   /\ (setOutputx10WattsViaFilters cfg s e x).2 =
        SetTipX10Watts x
          :: (if DEBUG_UART_OUTPUT cfg then [LogSystemState x] else [])
          ++ [ResetWatchdog])
  /\ (level <> 0 -> u32 (tickPulseFloor e) < lastPowerPulseEnd s1 ->
      pulseFloor s1 e x = level)
  /\ (level = 0 \/ lastPowerPulseEnd s1 <= u32 (tickPulseFloor e) ->
      pulseFloor s1 e x = x)
  /\ (tipRawTemp e > 0x7FFF - 32 -> adcCutoff e x = 0)
  /\ (tipRawTemp e <= 0x7FFF - 32 -> adcCutoff e x = x)
  /\ (heaterThermalRunaway s = true -> runawayCutoff s1 x = 0)
  /\ (heaterThermalRunaway s = false -> runawayCutoff s1 x = x)
  /\ powerLimitCeiling e x = x
  /\ supplyCeiling e x <= x
  /\ (supplyLimit e = 0 \/ x <= s32 (supplyLimit e * 10) -> supplyCeiling e x = x)
  /\ (forall limit, SLEW_LIMIT cfg = Some limit -> 0 <= filteredOutput cfg s e x).
Proof.
  intros Hx s1 level.
  assert (Hfloor_off : level = 0 \/ lastPowerPulseEnd s1 <= u32 (tickPulseFloor e) ->
                       pulseFloor s1 e x = x).
  { intros Hfloor. unfold pulseFloor. fold level. destruct Hfloor as [Hoff | Hclosed].
    - rewrite Hoff. reflexivity.
    - destruct (level =? 0); [reflexivity |].
      apply Z.ltb_ge in Hclosed. rewrite Hclosed, andb_false_r. reflexivity. }
  assert (Hadc_off : tipRawTemp e <= 0x7FFF - 32 -> adcCutoff e x = x).
  { intros Hraw. unfold adcCutoff. apply gtb_false_iff in Hraw.
    rewrite Hraw. reflexivity. }
  assert (Hrun_off : heaterThermalRunaway s = false -> runawayCutoff s1 x = x).
  { intros Hflag. unfold runawayCutoff. subst s1.
    rewrite pulseWindow_flag, Hflag. reflexivity. }
  assert (Hsup : supplyLimit e = 0 \/ x <= s32 (supplyLimit e * 10) ->
                 supplyCeiling e x = x).
  { intros Hs. unfold supplyCeiling. destruct Hs as [Hz | Hle].
    - rewrite Hz. reflexivity.
    - destruct (supplyLimit e =? 0); cbn [negb andb]; [reflexivity |].
      apply gtb_false_iff in Hle. rewrite Hle. reflexivity. }
  assert (Hpl : powerLimitCeiling e x = x) by (apply powerLimitCeiling_nonpos; lia).
  split; [| repeat split].
  - intros Hslew Hfloor Hraw Hflag Hs.
    assert (Hout : filteredOutput cfg s e x = x).
    { unfold filteredOutput, slewLimit. rewrite Hslew. fold s1.
      rewrite (Hfloor_off Hfloor), (Hadc_off Hraw), (Hrun_off Hflag), Hpl.
      apply Hsup, Hs. }
    split; [exact Hout |]. rewrite setOutput_trace, Hout. reflexivity.
  - intros Hon Hin. unfold pulseFloor. fold level.
    apply Z.eqb_neq in Hon. rewrite Hon.
    apply Z.ltb_lt in Hin. rewrite Hin, andb_true_r.
    pose proof (u16_range (settings e KeepAwakePulse)) as Hr.
    fold (getSettingValue e KeepAwakePulse) in Hr. fold level in Hr.
    assert (Hlt : (x <? level) = true) by (apply Z.ltb_lt; lia).
    rewrite Hlt. reflexivity.
  - exact Hfloor_off.
  - intros Hraw. unfold adcCutoff. apply gtb_true_iff in Hraw.
    rewrite Hraw. reflexivity.
  - exact Hadc_off.
  - intros Hflag. unfold runawayCutoff. subst s1.
    rewrite pulseWindow_flag, Hflag. reflexivity.
  - exact Hrun_off.
  - exact Hpl.
  - apply supplyCeiling_le.
  - exact Hsup.
  - intros limit Hl. unfold filteredOutput. apply (slewLimit_nonneg _ _ limit Hl).
Qed.

(** ** The integral term *)

(** C2, as amended.  For a nonzero set point the summand added after the P
    term is [x10WattHistory.average()], the average of the power history
    kept by the power model: the requested power is the P term plus that
    average (in [int32_t]).  The saturated error is pushed into
    [tempError], but the requested power does not depend on what
    [tempError] holds. *)
Theorem integral_term_is_power_average (s s' : state) (e : env) :
  tempTarget e <> 0 ->
  (pidCompute cfg s e).1.2 =
    s32 (s32 (0 + tempToX10Watts cfg (tempErrorOf e)) + x10WattHistory_average e)
  /\ tempError (pidCompute cfg s e).1.1 =
       history_update (PID_TIM_HZ cfg) (tempError s) (tempErrorOf e)
  /\ (pidCompute cfg s e).2 = tempErrorOf e
  /\ (pidCompute cfg s e).1.2 = (pidCompute cfg s' e).1.2.
Proof.
  intros Hnz. apply Z.eqb_neq in Hnz.
  unfold pidCompute. rewrite Hnz. cbn. repeat split.
Qed.

(** ** The runaway detector *)

Lemma runawayDelta_abs (s : state) (tipTemp : Z) :
  0 <= tipTemp <= INT16_MAX ->
  0 <= tipTempCRunawayTemp s <= INT16_MAX ->
  runawayDelta s tipTemp = Z.abs (tipTemp - tipTempCRunawayTemp s).
Proof.
  unfold INT16_MAX. intros Ht Hr. unfold runawayDelta.
  rewrite (s16_small tipTemp) by (unfold INT16_MIN, INT16_MAX; lia).
  rewrite (s16_small (tipTempCRunawayTemp s)) by (unfold INT16_MIN, INT16_MAX; lia).
  rewrite (s16_small (tipTemp - _)) by (unfold INT16_MIN, INT16_MAX; lia).
  split_cmp.
  - rewrite s16_small by (unfold INT16_MIN, INT16_MAX; lia). lia.
  - lia.
Qed.

Lemma detect_fires_iff (s : state) (tipTemp tError now : Z) :
  heaterThermalRunaway (detectThermalRunaway cfg s tipTemp tError now) = true <->
  heaterThermalRunaway s = true
  \/ (tError > THERMAL_RUNAWAY_TEMP_C cfg
      /\ runawayDelta s tipTemp <= THERMAL_RUNAWAY_TEMP_C cfg
      /\ runawayElapsed s now > runawayTimeLimit cfg).
Proof.
  unfold detectThermalRunaway.
  destruct (tError >? THERMAL_RUNAWAY_TEMP_C cfg) eqn:He;
    [apply gtb_true_iff in He | apply gtb_false_iff in He].
  - destruct (runawayDelta s tipTemp >? THERMAL_RUNAWAY_TEMP_C cfg) eqn:Hd;
      [apply gtb_true_iff in Hd | apply gtb_false_iff in Hd].
    + cbn. split; [intros H; left; exact H | intros [H | H]; [exact H | lia]].
    + destruct (runawayElapsed s now >? runawayTimeLimit cfg) eqn:Ht;
        [apply gtb_true_iff in Ht | apply gtb_false_iff in Ht].
      * cbn. split; [intros _; right; lia | reflexivity].
      * split; [intros H; left; exact H | intros [H | H]; [exact H | lia]].
  - cbn. split; [intros H; left; exact H | intros [H | H]; [exact H | lia]].
Qed.

Lemma detect_baseline (s : state) (tipTemp tError now : Z) :
  let s' := detectThermalRunaway cfg s tipTemp tError now in
  (tipTempCRunawayTemp s' = tipTempCRunawayTemp s
   /\ runawaylastChangeTime s' = runawaylastChangeTime s)
  \/ (tipTempCRunawayTemp s' = u16 (s16 tipTemp)
      /\ runawaylastChangeTime s' = u32 now).
Proof.
  unfold detectThermalRunaway.
  destruct (tError >? _); [| right; split; reflexivity].
  destruct (runawayDelta s tipTemp >? _); [right; split; reflexivity |].
  destruct (runawayElapsed s now >? _); left; split; reflexivity.
Qed.

(** A run of calls whose inputs keep moving never raises the flag. *)
Lemma moving_run (hi : Z) (calls : list (Z * Z * Z)) :
  hi <= 4294967295 ->
  forall (s : state) (lo : Z),
    heaterThermalRunaway s = false ->
    0 <= tipTempCRunawayTemp s <= INT16_MAX ->
    0 <= runawaylastChangeTime s <= lo ->
    Forall (fun c => 0 <= c.1.1 <= INT16_MAX) calls ->
    ticksWithin lo hi calls ->
    movesFrom cfg (tipTempCRunawayTemp s) (runawaylastChangeTime s) calls ->
    keepsMoving cfg calls ->
    heaterThermalRunaway (detectRun cfg s calls) = false.
Proof.
  intros Hhi.
  induction calls as [| [[tipTemp tError] now] calls' IH];
    intros s lo Hflag Href Hts Htemps Hticks Hfrom Hkeep.
  - exact Hflag.
  - cbn [detectRun]. cbn [ticksWithin] in Hticks. destruct Hticks as [Hnow Hrest].
    cbn [movesFrom] in Hfrom. destruct Hfrom as [Hstep Hfrom'].
    cbn [keepsMoving] in Hkeep. destruct Hkeep as [Hnext Hkeep'].
    inversion Htemps as [| c l Htemp Htemps']; subst. cbn [fst] in Htemp.
    assert (Hdelta : runawayDelta s tipTemp = Z.abs (tipTemp - tipTempCRunawayTemp s))
      by (apply runawayDelta_abs; assumption).
    assert (Hnow32 : u32 now = now) by (apply u32_small; lia).
    assert (Hel : runawayElapsed s now = now - runawaylastChangeTime s).
    { unfold runawayElapsed. rewrite Hnow32. apply u32_small. lia. }
    assert (Htemp16 : u16 (s16 tipTemp) = tipTemp).
    { unfold INT16_MAX in Htemp.
      rewrite s16_small by (unfold INT16_MIN, INT16_MAX; lia).
      apply u16_small. lia. }
    assert (Hclear : heaterThermalRunaway
                       (detectThermalRunaway cfg s tipTemp tError now) = false).
    { destruct (heaterThermalRunaway (detectThermalRunaway cfg s tipTemp tError now))
        eqn:Hafter; [| reflexivity].
      apply detect_fires_iff in Hafter.
      destruct Hafter as [Hset | (_ & Hd & Ht)]; [congruence | lia]. }
    destruct (detect_baseline s tipTemp tError now) as [[Hr Ht] | [Hr Ht]].
    + apply (IH _ now); try assumption; rewrite ?Hr, ?Ht; try assumption; lia.
    + apply (IH _ now); try assumption;
        rewrite ?Hr, ?Ht, ?Htemp16, ?Hnow32; try assumption; lia.
Qed.

(** C4, as amended.  One call of the detector, with [delta] the distance
    between the tip temperature and the baseline temperature as the code
    takes it in [int16_t], and the elapsed time counted from the baseline
    timestamp in [TickType_t]:
    - the flag is set after the call exactly when it was set before or the
      error is above the threshold, [delta] is at most the threshold and
      the elapsed time is above the limit;
    - when the error is at or below the threshold, or [delta] is above it,
      the baseline becomes the current temperature and the current tick
      and the flag is left as it was;
    - in the remaining case, error above the threshold and [delta] at most
      the threshold, the baseline is left as it was, whether or not the
      flag is raised;
    - [delta] is the absolute difference of the two temperatures for
      temperatures from 0 to 32767, and the elapsed time the difference of
      the two ticks for ticks that have not wrapped;
    - over any run of calls that starts with the flag clear, with
      temperatures from 0 to 32767 and tick counts that do not decrease
      and do not wrap, the flag is clear at the end when the inputs keep
      moving: between the baseline the run starts from and any call, and
      between any two calls, either the temperature differs by more than
      the threshold or the ticks are at most the time limit apart.  This
      holds whatever the errors are, so also when they are above the
      threshold throughout. *)
Theorem detector_cases (s : state) (tipTemp tError now hi : Z)
                       (calls : list (Z * Z * Z)) :
  let threshold := THERMAL_RUNAWAY_TEMP_C cfg in
  let s' := detectThermalRunaway cfg s tipTemp tError now in
  (heaterThermalRunaway s' = true <->
     heaterThermalRunaway s = true
     \/ (tError > threshold
         /\ runawayDelta s tipTemp <= threshold
         /\ runawayElapsed s now > runawayTimeLimit cfg))
  /\ (tError <= threshold \/ runawayDelta s tipTemp > threshold ->
      tipTempCRunawayTemp s' = u16 (s16 tipTemp)
      /\ runawaylastChangeTime s' = u32 now
      /\ heaterThermalRunaway s' = heaterThermalRunaway s)
  /\ (tError > threshold -> runawayDelta s tipTemp <= threshold ->
      tipTempCRunawayTemp s' = tipTempCRunawayTemp s
      /\ runawaylastChangeTime s' = runawaylastChangeTime s)
  /\ (0 <= tipTemp <= INT16_MAX -> 0 <= tipTempCRunawayTemp s <= INT16_MAX ->
      runawayDelta s tipTemp = Z.abs (tipTemp - tipTempCRunawayTemp s)
      /\ u16 (s16 tipTemp) = tipTemp)
  /\ (0 <= runawaylastChangeTime s <= now -> now <= 4294967295 ->
      runawayElapsed s now = now - runawaylastChangeTime s /\ u32 now = now)
  /\ (heaterThermalRunaway s = false ->
      0 <= tipTempCRunawayTemp s <= INT16_MAX ->
      0 <= runawaylastChangeTime s ->
      hi <= 4294967295 ->
      Forall (fun c => 0 <= c.1.1 <= INT16_MAX) calls ->
      ticksWithin (runawaylastChangeTime s) hi calls ->
      movesFrom cfg (tipTempCRunawayTemp s) (runawaylastChangeTime s) calls ->
      keepsMoving cfg calls ->
      heaterThermalRunaway (detectRun cfg s calls) = false).
Proof.
  intros threshold s'. subst threshold s'.
  split; [apply detect_fires_iff |].
  split; [| split; [| split; [| split]]].
  - intros Hcase. unfold detectThermalRunaway.
    destruct (tError >? THERMAL_RUNAWAY_TEMP_C cfg) eqn:He;
      [apply gtb_true_iff in He | cbn; repeat split].
    destruct (runawayDelta s tipTemp >? THERMAL_RUNAWAY_TEMP_C cfg) eqn:Hd;
      [cbn; repeat split | apply gtb_false_iff in Hd; lia].
  - intros He Hd. unfold detectThermalRunaway.
    apply gtb_true_iff in He. apply gtb_false_iff in Hd. rewrite He, Hd.
    destruct (runawayElapsed s now >? runawayTimeLimit cfg); cbn; split; reflexivity.
  - intros Ht Hr. split; [apply runawayDelta_abs; assumption |].
    unfold INT16_MAX in Ht.
    rewrite s16_small by (unfold INT16_MIN, INT16_MAX; lia).
    apply u16_small. lia.
  - intros Hts Hnow. unfold runawayElapsed.
    rewrite (u32_small now) by lia. split; [| reflexivity].
    apply u32_small. lia.
  - intros Hflag Href Hts Hhi Htemps Hticks Hfrom Hkeep.
    apply (moving_run hi calls Hhi s (runawaylastChangeTime s));
      try assumption. lia.
Qed.

End Properties.

(** * Concrete runs *)

(** Closes a goal made of closed comparisons and equations by evaluation. *)
Ltac by_evaluation :=
  vm_compute;
  repeat match goal with |- _ /\ _ => split end;
  first [ reflexivity
        | discriminate
        | exact I
        | let H := fresh in intros H; discriminate H ].

(** C7 at a set point of 10000 with a tip that measures up to 500. *)
Lemma clampTarget_is_min_witness :
  tempTarget overTarget <> 0
  /\ tempTarget overTarget = 10000
  /\ tipMaxInC overTarget = 500
  /\ clampTarget overTarget = 450
  /\ PIDTempTarget (pidCompute plainConfig (initState plainConfig) overTarget).1.1 = 450
  /\ (pidCompute plainConfig (initState plainConfig) overTarget).2 = 426.
Proof.
  assert (Hnz : tempTarget overTarget <> 0) by by_evaluation.
  destruct (clampTarget_is_min plainConfig (initState plainConfig) overTarget Hnz)
    as (H1 & H2 & H3 & H4).
  split; [exact Hnz |].
  split; [reflexivity |]. split; [reflexivity |].
  split; [apply H4; reflexivity |].
  split; [exact H2 | exact H3].
Defined.

(** C3 with the heater off and the tip at 200 degrees. *)
Lemma zero_target_requests_nothing_witness :
  tempTarget offReading = 0
  /\ notified offReading = true
  /\ (pidCompute plainConfig (initState plainConfig) offReading).1.2 = 0
  /\ (pidCompute plainConfig (initState plainConfig) offReading).2 = 0
  /\ pidCycle plainConfig (initState plainConfig) offReading =
       setOutputx10WattsViaFilters plainConfig
         (detectThermalRunaway plainConfig
            (set_PIDTempTarget 0 (initState plainConfig))
            (currentTipTempInC offReading) 0 (tickRunaway offReading))
         offReading 0.
Proof.
  assert (Hz : tempTarget offReading = 0) by reflexivity.
  assert (Hn : notified offReading = true) by reflexivity.
  destruct (zero_target_requests_nothing plainConfig (initState plainConfig)
              offReading Hz) as (H1 & H2 & H3).
  split; [exact Hz |]. split; [exact Hn |].
  split; [exact H1 |]. split; [exact H2 | exact (H3 Hn)].
Defined.

(** C8 on a state with a history, a baseline and a pulse window behind it. *)
Lemma timeout_leaves_state_witness :
  notified (timedOut heatingReading) = false
  /\ (pidCycle plainConfig afterHeating (timedOut heatingReading)).2 = [SetTipPWM 0]
  /\ (pidCycle plainConfig afterHeating (timedOut heatingReading)).1 = afterHeating.
Proof.
  assert (Hn : notified (timedOut heatingReading) = false) by reflexivity.
  destruct (timeout_leaves_state plainConfig afterHeating (timedOut heatingReading) Hn)
    as (H1 & H2 & _).
  split; [exact Hn |]. split; [exact H1 | exact H2].
Defined.

(** C6 on a request of 724.2 W against limits of 30 W and 65 W. *)
Lemma ceilings_give_smaller_limit_witness :
  getSettingValue highDemand PowerLimit = 30
  /\ supplyLimit highDemand = 65
  /\ (pidCompute plainConfig (initState plainConfig) highDemand).1.2 = 7242
  /\ supplyCeiling highDemand (powerLimitCeiling highDemand 7242) = 300
  /\ supplyCeiling highDemand (powerLimitCeiling highDemand 7242) <> 650
  /\ beforeSlew slewConfig (initState slewConfig) highDemand 7242 = 300
  /\ filteredOutput plainConfig (initState plainConfig) highDemand 7242 = 300
  /\ beforeSlew plainConfig (initState plainConfig) highDemandSaturated 7242 = 0.
Proof.
  assert (Hc : getSettingValue highDemand PowerLimit <> 0) by by_evaluation.
  assert (Hs : supplyLimit highDemand <> 0) by by_evaluation.
  assert (Hfit : INT32_MIN <= supplyLimit highDemand * 10 <= INT32_MAX)
    by by_evaluation.
  assert (Hxc : 7242 > getSettingValue highDemand PowerLimit * 10) by by_evaluation.
  assert (Hxs : 7242 > s32 (supplyLimit highDemand * 10)) by by_evaluation.
  destruct (ceilings_give_smaller_limit plainConfig (initState plainConfig)
              highDemand 7242 Hc Hs Hxc Hxs) as (H1 & H2 & H3 & _).
  destruct (ceilings_give_smaller_limit slewConfig (initState slewConfig)
              highDemand 7242 Hc Hs Hxc Hxs) as (_ & _ & H3s & _).
  destruct (ceilings_give_smaller_limit plainConfig (initState plainConfig)
              highDemandSaturated 7242 Hc Hs Hxc Hxs) as (_ & _ & _ & H4).
  destruct (H2 Hfit) as (_ & H2b).
  destruct H3 as (_ & H3b); [by_evaluation | reflexivity |].
  destruct H3s as (H3a & _); [by_evaluation | reflexivity |].
  split; [reflexivity |]. split; [reflexivity |]. split; [reflexivity |].
  split; [exact H1 |].
  split; [apply H2b; by_evaluation |].
  split; [exact H3a |].
  split; [exact (H3b eq_refl) |].
  apply H4. left. by_evaluation.
Defined.

(** C6 as first stated fails: the requested power is above ten times both
    limits, 30 W and 65 W, but the raw reading is 10 counts below full
    scale, so 0 reaches the ceilings and 0 leaves them; and with the supply
    limit at -300000000, whose tenfold leaves [int32_t], the same request
    leaves the ceilings as ten times the larger limit. *)
Lemma ceilings_after_cutoff :
  getSettingValue highDemandSaturated PowerLimit = 30
  /\ supplyLimit highDemandSaturated = 65
  /\ (pidCompute plainConfig (initState plainConfig) highDemandSaturated).1.2 = 7242
  /\ beforeSlew plainConfig
       (detectThermalRunaway plainConfig
          (pidCompute plainConfig (initState plainConfig) highDemandSaturated).1.1
          (currentTipTempInC highDemandSaturated) 426 (tickRunaway highDemandSaturated))
       highDemandSaturated 7242 = 0
  /\ (pidCycle plainConfig (initState plainConfig) highDemandSaturated).2
     = [SetTipX10Watts 0; ResetWatchdog]
  /\ supplyLimit highDemandOverflow = -300000000
  /\ 7242 > supplyLimit highDemandOverflow * 10
  /\ (pidCompute plainConfig (initState plainConfig) highDemandOverflow).1.2 = 7242
  /\ (pidCycle plainConfig (initState plainConfig) highDemandOverflow).2
     = [SetTipX10Watts 300; ResetWatchdog].
Proof. by_evaluation. Qed.

(** C5 on a build with the slew limiter: raw reading [0x7FFF - 10], flag
    clear, 50 W requested. *)
Lemma adc_saturation_cuts_power_witness :
  tipRawTemp saturatedReading > 0x7FFF - 32
  /\ heaterThermalRunaway (initState slewConfig) = false
  /\ supplyProduct_nonneg saturatedReading
  /\ filteredOutput slewConfig (initState slewConfig) saturatedReading 500 = 0
  /\ (pidCycle slewConfig (initState slewConfig) saturatedReading).2 =
       [SetTipX10Watts 0; LogSystemState 0; ResetWatchdog]
  /\ adcCutoff boundaryReading 500 = 500.
Proof.
  assert (Hraw : tipRawTemp saturatedReading > 0x7FFF - 32) by by_evaluation.
  assert (Hl : slewLimit_wf slewConfig) by by_evaluation.
  assert (Hs : state_wf (initState slewConfig)) by by_evaluation.
  destruct (adc_saturation_cuts_power slewConfig (initState slewConfig)
              saturatedReading 500) as (Hcut & _ & _ & _ & Hprod).
  destruct (adc_saturation_cuts_power slewConfig (initState slewConfig)
              boundaryReading 500) as (_ & Hkeep & _ & Hb & _).
  assert (He : supplyProduct_nonneg saturatedReading) by (apply Hprod; by_evaluation).
  destruct (Hcut Hraw Hl Hs He) as (H1 & H2).
  split; [exact Hraw |]. split; [reflexivity |]. split; [exact He |].
  split; [exact H1 |]. split; [exact H2 |].
  apply Hkeep, Hb. reflexivity.
Defined.

(** C5 as first stated fails.  A raw reading exactly 32 counts below full
    scale is not cut off: 469.2 W is committed.  With the reading 10
    counts below full scale and the supply limit at -1, the supply ceiling
    lowers the forced 0 to -10; with the supply limit at 300000000 its
    tenfold wraps in [int32_t] and -1294967296 is committed. *)
Lemma adc_cutoff_exceptions :
  tipRawTemp boundaryReading = 0x7FFF - 32
  /\ heaterThermalRunaway (initState plainConfig) = false
  /\ notified boundaryReading = true
  /\ supplyLimit boundaryReading = 0
  /\ (pidCycle plainConfig (initState plainConfig) boundaryReading).2 =
       [SetTipX10Watts 4692; ResetWatchdog]
  /\ tipRawTemp saturatedNegativeSupply = 0x7FFF - 10
  /\ notified saturatedNegativeSupply = true
  /\ supplyLimit saturatedNegativeSupply = -1
  /\ (pidCycle plainConfig (initState plainConfig) saturatedNegativeSupply).2 =
       [SetTipX10Watts (-10); ResetWatchdog]
  /\ tipRawTemp saturatedOverflowSupply = 0x7FFF - 10
  /\ notified saturatedOverflowSupply = true
  /\ supplyLimit saturatedOverflowSupply = 300000000
  /\ (pidCycle plainConfig (initState plainConfig) saturatedOverflowSupply).2 =
       [SetTipX10Watts (-1294967296); ResetWatchdog].
Proof. by_evaluation. Qed.

(** C1 over three iterations, the second of which times out. *)
Lemma runaway_flag_is_latched_witness :
  heaterThermalRunaway runawayState = true
  /\ Forall supplyProduct_nonneg [heatingReading; timedOut heatingReading; coldStart]
  /\ heaterThermalRunaway
       (pidRun plainConfig runawayState
          [heatingReading; timedOut heatingReading; coldStart]).1 = true
  /\ Forall heaterOff
       (pidRun plainConfig runawayState
          [heatingReading; timedOut heatingReading; coldStart]).2.
Proof.
  assert (Hflag : heaterThermalRunaway runawayState = true) by reflexivity.
  assert (Hl : slewLimit_wf plainConfig) by exact I.
  assert (Hs : state_wf runawayState) by by_evaluation.
  destruct (runaway_flag_is_latched plainConfig runawayState
              [heatingReading; timedOut heatingReading; coldStart] Hflag)
    as (H1 & H2 & H3).
  assert (Hes : Forall supplyProduct_nonneg
                  [heatingReading; timedOut heatingReading; coldStart])
    by (repeat (constructor 2; [apply H3; by_evaluation |]); constructor 1).
  split; [exact Hflag |]. split; [exact Hes |].
  split; [exact H1 | exact (H2 Hl Hs Hes)].
Defined.

(** C1 as first stated fails: with the flag raised and the supply limit at
    -1 the iteration commits -10, and with the supply limit at 300000000,
    whose tenfold wraps in [int32_t], it commits -1294967296. *)
Lemma runaway_cutoff_negative_supply :
  heaterThermalRunaway runawayState = true
  /\ notified negativeSupplyReading = true
  /\ supplyLimit negativeSupplyReading = -1
  /\ (pidCycle plainConfig runawayState negativeSupplyReading).2 =
       [SetTipX10Watts (-10); ResetWatchdog]
  /\ ~ Forall heaterOff (pidCycle plainConfig runawayState negativeSupplyReading).2
  /\ notified overflowSupplyReading = true
  /\ supplyLimit overflowSupplyReading = 300000000
  /\ (pidCycle plainConfig runawayState overflowSupplyReading).2 =
       [SetTipX10Watts (-1294967296); ResetWatchdog].
Proof.
  split; [reflexivity |]. split; [reflexivity |]. split; [reflexivity |].
  assert (Htr : (pidCycle plainConfig runawayState negativeSupplyReading).2 =
                  [SetTipX10Watts (-10); ResetWatchdog]) by (vm_compute; reflexivity).
  split; [exact Htr |].
  split.
  { rewrite Htr. intros Hoff. inversion Hoff as [| ev tr Hev Htl]; subst.
    cbn in Hev. discriminate Hev. }
  by_evaluation.
Qed.

(** C10 on a tip 100 degrees above the set point: -168.3 W goes through
    on a plain build, also under a supply limit of 65 W; inside a pulse
    window the floor raises it to the pulse level. *)
Lemma negative_request_without_slew_witness :
  SLEW_LIMIT plainConfig = None
  /\ (pidCompute plainConfig (initState plainConfig) overshootReading).1.2 = -1683
  /\ filteredOutput plainConfig (initState plainConfig) overshootReading (-1683) = -1683
  /\ (setOutputx10WattsViaFilters plainConfig (initState plainConfig)
        overshootReading (-1683)).2 = [SetTipX10Watts (-1683); ResetWatchdog]
  /\ pulseFloor (pulseWindow plainConfig (initState plainConfig) overshootPulse)
       overshootPulse (-1683) = 5
  /\ adcCutoff overshootSaturated (-1683) = 0
  /\ 0 <= filteredOutput slewConfig (initState slewConfig) overshootReading (-1683).
Proof.
  assert (Hx : -1683 < 0) by reflexivity.
  destruct (negative_request_without_slew plainConfig (initState plainConfig)
              overshootReading (-1683) Hx) as (H1 & _).
  destruct (negative_request_without_slew plainConfig (initState plainConfig)
              overshootPulse (-1683) Hx) as (_ & H2 & _).
  destruct (negative_request_without_slew plainConfig (initState plainConfig)
              overshootSaturated (-1683) Hx) as (_ & _ & _ & H3 & _).
  destruct (negative_request_without_slew slewConfig (initState slewConfig)
              overshootReading (-1683) Hx)
    as (_ & _ & _ & _ & _ & _ & _ & _ & _ & _ & H4).
  assert (Hfloor : getSettingValue overshootReading KeepAwakePulse = 0
                   \/ lastPowerPulseEnd
                        (pulseWindow plainConfig (initState plainConfig) overshootReading)
                      <= u32 (tickPulseFloor overshootReading))
    by (left; reflexivity).
  assert (Hraw : tipRawTemp overshootReading <= 0x7FFF - 32) by by_evaluation.
  assert (He : supplyLimit overshootReading = 0
               \/ -1683 <= s32 (supplyLimit overshootReading * 10))
    by (left; reflexivity).
  destruct (H1 eq_refl Hfloor Hraw eq_refl He) as (Hout & Htr).
  split; [reflexivity |]. split; [reflexivity |].
  split; [exact Hout |]. split; [exact Htr |].
  split; [apply H2; by_evaluation |].
  split; [apply H3; by_evaluation |].
  exact (H4 200 eq_refl).
Defined.

(** C10 as first stated fails: the same negative request is replaced by 0
    when the raw reading is at full scale and by the pulse level inside a
    keep-awake window, and it is lowered by a supply limit whose tenfold,
    as computed in [int32_t], lies below it: -200, and 300000000, which
    wraps.  Neither build option is involved. *)
Lemma negative_request_is_raised :
  SLEW_LIMIT plainConfig = None
  /\ (pidCompute plainConfig (initState plainConfig) overshootSaturated).1.2 = -1683
  /\ (pidCycle plainConfig (initState plainConfig) overshootSaturated).2 =
       [SetTipX10Watts 0; ResetWatchdog]
  /\ (pidCompute plainConfig (initState plainConfig) overshootPulse).1.2 = -1683
  /\ (pidCycle plainConfig (initState plainConfig) overshootPulse).2 =
       [SetTipX10Watts 5; ResetWatchdog]
  /\ supplyLimit overshootLowSupply = -200
  /\ (pidCompute plainConfig (initState plainConfig) overshootLowSupply).1.2 = -1683
  /\ (pidCycle plainConfig (initState plainConfig) overshootLowSupply).2 =
       [SetTipX10Watts (-2000); ResetWatchdog]
  /\ supplyLimit overshootOverflowSupply = 300000000
  /\ (pidCompute plainConfig (initState plainConfig) overshootOverflowSupply).1.2 = -1683
  /\ (pidCycle plainConfig (initState plainConfig) overshootOverflowSupply).2 =
       [SetTipX10Watts (-1294967296); ResetWatchdog].
Proof. by_evaluation. Qed.

(** C2 on the first iteration of a cold tip, against two different
    contents of [tempError]. *)
Lemma integral_term_is_power_average_witness :
  tempTarget coldStart <> 0
  /\ tempError afterHeating <> tempError (initState plainConfig)
  /\ (pidCompute plainConfig (initState plainConfig) coldStart).1.2 = 1717
  /\ (pidCompute plainConfig afterHeating coldStart).1.2 = 1717
  /\ buf (tempError (pidCompute plainConfig (initState plainConfig) coldStart).1.1) =
       [101; 0; 0; 0; 0; 0; 0; 0].
Proof.
  assert (Hnz : tempTarget coldStart <> 0) by by_evaluation.
  destruct (integral_term_is_power_average plainConfig (initState plainConfig)
              afterHeating coldStart Hnz) as (H1 & H2 & _ & H4).
  split; [exact Hnz |].
  split; [by_evaluation |].
  split; [exact H1 |].
  split; [rewrite <- H4; exact H1 |].
  rewrite H2. reflexivity.
Defined.

(** C2 as first stated fails: on the first iteration of a cold tip the
    average of the error history is 12 after the update, the summand the
    code adds is the power average, 0, and the requested power is the P
    term alone. *)
Lemma integral_term_not_error_average :
  tempTarget coldStart <> 0
  /\ iTermSpec plainConfig (initState plainConfig) coldStart = 12
  /\ iTerm coldStart = 0
  /\ pTerm plainConfig coldStart = 1717
  /\ (pidCompute plainConfig (initState plainConfig) coldStart).1.2 = 1717
  /\ (pidCompute plainConfig (initState plainConfig) coldStart).1.2 <>
       s32 (pTerm plainConfig coldStart
            + iTermSpec plainConfig (initState plainConfig) coldStart).
Proof. by_evaluation. Qed.

(** C4 at a call that fires, a call that resets the baseline, a call that
    waits, and a run in which the tip keeps climbing. *)
Lemma detector_cases_witness :
  heaterThermalRunaway (detectThermalRunaway plainConfig stalledBaseline 26 275 21001) = true
  /\ tipTempCRunawayTemp (detectThermalRunaway plainConfig stalledBaseline 40 275 5000) = 40
  /\ runawaylastChangeTime (detectThermalRunaway plainConfig stalledBaseline 40 275 5000) = 5000
  /\ runawaylastChangeTime (detectThermalRunaway plainConfig stalledBaseline 26 275 5000) = 1000
  /\ runawayDelta stalledBaseline 26 = 1
  /\ runawayElapsed stalledBaseline 21001 = 20001
  /\ movesFrom plainConfig 25 1000 climbingCalls
  /\ keepsMoving plainConfig climbingCalls
  /\ heaterThermalRunaway (detectRun plainConfig stalledBaseline climbingCalls) = false.
Proof.
  destruct (detector_cases plainConfig stalledBaseline 26 275 21001 30000 climbingCalls)
    as (Hfire & _ & _ & Hdelta & Helapsed & Hrun).
  destruct (detector_cases plainConfig stalledBaseline 40 275 5000 0 [])
    as (_ & Hreset & _).
  destruct (detector_cases plainConfig stalledBaseline 26 275 5000 0 [])
    as (_ & _ & Hwait & _).
  assert (Hfrom : movesFrom plainConfig 25 1000 climbingCalls).
  { cbn [movesFrom climbingCalls]. repeat split; left; by_evaluation. }
  assert (Hkeep : keepsMoving plainConfig climbingCalls).
  { cbn [keepsMoving movesFrom climbingCalls]. repeat split.
    - left. by_evaluation.
    - left. by_evaluation.
    - right. by_evaluation. }
  assert (Htemps : Forall (fun c => 0 <= c.1.1 <= INT16_MAX) climbingCalls)
    by (repeat (constructor 2; [by_evaluation |]); constructor 1).
  assert (Hticks : ticksWithin (runawaylastChangeTime stalledBaseline) 30000
                     climbingCalls) by by_evaluation.
  split.
  { apply Hfire. right. repeat split; by_evaluation. }
  destruct Hreset as (Ht & Hts & _); [right; by_evaluation |].
  split; [exact Ht |]. split; [exact Hts |].
  destruct Hwait as (_ & Hkept); [by_evaluation | by_evaluation |].
  split; [exact Hkept |].
  destruct Hdelta as (Hd & _); [by_evaluation | by_evaluation |].
  split; [exact Hd |].
  destruct Helapsed as (He & _); [by_evaluation | by_evaluation |].
  split; [exact He |].
  split; [exact Hfrom |]. split; [exact Hkeep |].
  apply Hrun; try assumption; by_evaluation.
Defined.

(** C4 as first stated fails.  With the error above the threshold, the tip
    one degree from the baseline and the baseline 4 s old, the flag is not
    set and the baseline is neither moved to the current temperature nor
    to the current tick.  And with a tip reading of 65561 against the
    baseline of 25 degrees, the two are 65536 apart but the [int16_t]
    distance is 0, so past the time limit the flag is set. *)
Lemma stall_in_progress_keeps_baseline :
  275 > THERMAL_RUNAWAY_TEMP_C plainConfig
  /\ runawayDelta stalledBaseline 26 <= THERMAL_RUNAWAY_TEMP_C plainConfig
  /\ runawayElapsed stalledBaseline 5000 <= runawayTimeLimit plainConfig
  /\ heaterThermalRunaway (detectThermalRunaway plainConfig stalledBaseline 26 275 5000) = false
  /\ tipTempCRunawayTemp (detectThermalRunaway plainConfig stalledBaseline 26 275 5000) = 25
  /\ runawaylastChangeTime (detectThermalRunaway plainConfig stalledBaseline 26 275 5000) = 1000
  /\ tipTempCRunawayTemp (detectThermalRunaway plainConfig stalledBaseline 26 275 5000) <> 26
  /\ runawaylastChangeTime (detectThermalRunaway plainConfig stalledBaseline 26 275 5000) <> 5000
  /\ Z.abs (65561 - tipTempCRunawayTemp stalledBaseline) > THERMAL_RUNAWAY_TEMP_C plainConfig
  /\ runawayDelta stalledBaseline 65561 = 0
  /\ heaterThermalRunaway (detectThermalRunaway plainConfig stalledBaseline 65561 275 21001)
     = true.
Proof. by_evaluation. Qed.

(** * Further properties of the three functions *)

Lemma s32_le (y : Z) : INT32_MIN <= y -> s32 y <= y.
Proof.
  unfold s32, wrapS, INT32_MIN. intros Hy.
  pose proof (Z.mod_le (y + 2 ^ (32 - 1)) (2 ^ 32)) as Hle.
  assert (0 <= y + 2 ^ (32 - 1)) by lia.
  assert (0 < 2 ^ 32) by lia.
  specialize (Hle ltac:(assumption) ltac:(assumption)). lia.
Qed.

Lemma s32_u32 (z : Z) : s32 (u32 z) = s32 z.
Proof.
  unfold s32, u32, wrapS, wrapU.
  rewrite Z.add_mod_idemp_l by lia. reflexivity.
Qed.

Section MoreProperties.

Variable cfg : Config.

(** ** The slew limiter *)

(** Inside the ranges of [slewInRange] the block computes what it is
    meant to: the smaller of the value and the previous output plus the
    step, floored at 0. *)
Lemma slewLimit_in_range (s : state) (c limit : Z) :
  SLEW_LIMIT cfg = Some limit -> 0 <= limit ->
  0 <= x10WattsOutLast s <= INT32_MAX ->
  c <= INT32_MAX -> INT32_MIN <= c - x10WattsOutLast s ->
  slewLimit cfg s c = Z.max 0 (Z.min c (x10WattsOutLast s + limit)).
Proof.
  intros Hl Hlim Hlast Hc Hsub. unfold slewLimit. rewrite Hl.
  rewrite (s32_small (c - _)) by (unfold INT32_MIN, INT32_MAX in *; lia).
  destruct (c - x10WattsOutLast s >? limit) eqn:Hgt;
    [apply gtb_true_iff in Hgt | apply gtb_false_iff in Hgt].
  - rewrite s32_small by (unfold INT32_MIN, INT32_MAX in *; lia).
    split_cmp; lia.
  - split_cmp; lia.
Qed.

Lemma slewLimit_upper (s : state) (c limit : Z) :
  SLEW_LIMIT cfg = Some limit -> 0 <= limit ->
  0 <= x10WattsOutLast s <= INT32_MAX -> c <= INT32_MAX ->
  slewLimit cfg s c <= x10WattsOutLast s + limit.
Proof.
  intros Hl Hlim Hlast Hc.
  destruct (Z_le_gt_dec INT32_MIN (c - x10WattsOutLast s)) as [Hsub | Hsub].
  - rewrite (slewLimit_in_range s c limit) by assumption. lia.
  - unfold slewLimit. rewrite Hl.
    pose proof (s32_le (x10WattsOutLast s + limit)) as Hle.
    assert (c < 0) by (unfold INT32_MIN, INT32_MAX in *; lia).
    destruct (s32 (c - x10WattsOutLast s) >? limit).
    + split_cmp; [lia |]. unfold INT32_MIN in Hle. lia.
    + split_cmp; lia.
Qed.

(** X1. Where the slew limiter is compiled in, with a step that is not
    negative and a previous output that is a non-negative [int32_t], the
    value handed to [setTipX10Watts] is at least 0 and at most the previous
    output plus the step, whatever is requested and whatever the earlier
    stages do; that value is the previous output of the next call. *)
Theorem slew_bounds_the_increase (s : state) (e : env) (x limit : Z) :
  SLEW_LIMIT cfg = Some limit -> 0 <= limit ->
  0 <= x10WattsOutLast s <= INT32_MAX -> x <= INT32_MAX ->
  0 <= filteredOutput cfg s e x <= x10WattsOutLast s + limit
  /\ x10WattsOutLast (setOutputx10WattsViaFilters cfg s e x).1 =
       filteredOutput cfg s e x.
Proof.
  intros Hl Hlim Hlast Hx. split; [split |].
  - unfold filteredOutput. apply (slewLimit_nonneg cfg _ _ limit Hl).
  - unfold filteredOutput.
    rewrite <- (pulseWindow_last cfg s e).
    apply slewLimit_upper; try assumption.
    + rewrite pulseWindow_last. exact Hlast.
    + apply chain_upper. exact Hx.
  - rewrite setOutput_last, Hl. reflexivity.
Qed.

Lemma pulseWindow_off (s : state) (e : env) :
  getSettingValue e KeepAwakePulse = 0 -> pulseWindow cfg s e = s.
Proof. intros Hoff. unfold pulseWindow. rewrite Hoff. reflexivity. Qed.




(** ** The clamp chain as a whole *)

(** The stages before the slew block, composed. *)
Local Abbreviation chain s e x :=
  (supplyCeiling e
     (powerLimitCeiling e (runawayCutoff s (adcCutoff e (pulseFloor s e x))))).

Lemma cutoffs_mono (s : state) (e : env) (x y : Z) :
  x <= y -> runawayCutoff s (adcCutoff e x) <= runawayCutoff s (adcCutoff e y).
Proof.
  intros Hxy. unfold runawayCutoff, adcCutoff.
  destruct (heaterThermalRunaway s); [lia |].
  destruct (tipRawTemp e >? 0x7FFF - 32); lia.
Qed.

Lemma pulseFloor_mono (s : state) (e : env) (x y : Z) :
  x <= y -> pulseFloor s e x <= pulseFloor s e y.
Proof.
  intros Hxy. unfold pulseFloor.
  destruct (getSettingValue e KeepAwakePulse =? 0); [exact Hxy |].
  destruct (u32 (tickPulseFloor e) <? lastPowerPulseEnd s);
    rewrite ?andb_true_r, ?andb_false_r; [| exact Hxy].
  destruct (Z.ltb_spec x (getSettingValue e KeepAwakePulse));
    destruct (Z.ltb_spec y (getSettingValue e KeepAwakePulse)); lia.
Qed.

Lemma ceilings_mono (e : env) (x y : Z) :
  x <= y ->
  supplyCeiling e (powerLimitCeiling e x) <= supplyCeiling e (powerLimitCeiling e y).
Proof.
  intros Hxy.
  assert (Hp : powerLimitCeiling e x <= powerLimitCeiling e y).
  { unfold powerLimitCeiling.
    destruct (getSettingValue e PowerLimit =? 0); cbn [negb andb]; [exact Hxy |].
    rewrite !Z.gtb_ltb.
    destruct (Z.ltb_spec (getSettingValue e PowerLimit * 10) x);
      destruct (Z.ltb_spec (getSettingValue e PowerLimit * 10) y); lia. }
  revert Hp. generalize (powerLimitCeiling e x), (powerLimitCeiling e y).
  intros a b Hab. unfold supplyCeiling.
  destruct (supplyLimit e =? 0); cbn [negb andb]; [exact Hab |].
  rewrite !Z.gtb_ltb.
  destruct (Z.ltb_spec (s32 (supplyLimit e * 10)) a);
    destruct (Z.ltb_spec (s32 (supplyLimit e * 10)) b); lia.
Qed.

Lemma chain_mono (s : state) (e : env) (x y : Z) :
  x <= y -> chain s e x <= chain s e y.
Proof.
  intros Hxy. apply ceilings_mono, cutoffs_mono, pulseFloor_mono, Hxy.
Qed.

Lemma chain_le_floor (s : state) (e : env) (x : Z) :
  chain s e x <= Z.max 0 (pulseFloor s e x).
Proof.
  etransitivity; [apply supplyCeiling_le |].
  etransitivity; [apply powerLimitCeiling_le |].
  unfold runawayCutoff, adcCutoff.
  destruct (heaterThermalRunaway s); [lia |].
  destruct (tipRawTemp e >? 0x7FFF - 32); lia.
Qed.

Lemma chain_lower (s : state) (e : env) (x : Z) :
  supplyLimit_wf e -> Z.min x 0 <= chain s e x.
Proof.
  unfold supplyLimit_wf. intros He.
  assert (Hc : Z.min x 0 <= runawayCutoff s (adcCutoff e (pulseFloor s e x))).
  { pose proof (pulseFloor_ge s e x). unfold runawayCutoff, adcCutoff.
    destruct (heaterThermalRunaway s); [lia |].
    destruct (tipRawTemp e >? 0x7FFF - 32); lia. }
  revert Hc. generalize (runawayCutoff s (adcCutoff e (pulseFloor s e x))).
  intros c Hc.
  assert (Hp : Z.min x 0 <= powerLimitCeiling e c).
  { unfold powerLimitCeiling.
    pose proof (u16_range (settings e PowerLimit)) as Hr.
    fold (getSettingValue e PowerLimit) in Hr.
    destruct (_ && _); lia. }
  revert Hp. generalize (powerLimitCeiling e c). intros d Hd.
  unfold supplyCeiling. rewrite s32_small by (unfold INT32_MIN; lia).
  destruct (_ && _); lia.
Qed.

(** The slew block, inside its ranges, on the value the chain hands it. *)
Lemma filteredOutput_in_range (s : state) (e : env) (x : Z) :
  slewInRange cfg s e x -> x <= INT32_MAX ->
  filteredOutput cfg s e x =
    match SLEW_LIMIT cfg with
    | None => chain (pulseWindow cfg s e) e x
    | Some limit =>
        Z.max 0 (Z.min (chain (pulseWindow cfg s e) e x) (x10WattsOutLast s + limit))
    end.
Proof.
  unfold slewInRange. intros Hr Hx. unfold filteredOutput.
  destruct (SLEW_LIMIT cfg) as [limit |] eqn:Hl.
  - destruct Hr as (Hlim & Hlast & Hsub & He).
    rewrite (slewLimit_in_range _ _ limit Hl Hlim);
      rewrite ?pulseWindow_last; try assumption.
    + reflexivity.
    + apply chain_upper, Hx.
    + pose proof (chain_lower (pulseWindow cfg s e) e x He).
      unfold INT32_MIN, INT32_MAX in *. lia.
  - unfold slewLimit. rewrite Hl. reflexivity.
Qed.

Lemma filteredOutput_le_chain (s : state) (e : env) (x : Z) :
  slewInRange cfg s e x -> x <= INT32_MAX ->
  filteredOutput cfg s e x <= Z.max 0 (chain (pulseWindow cfg s e) e x).
Proof.
  intros Hr Hx. rewrite filteredOutput_in_range by assumption.
  destruct (SLEW_LIMIT cfg); lia.
Qed.

(** X3. A limit that is set bounds what is committed.  With a nonzero
    configured limit the value handed to [setTipX10Watts] is at most ten
    times it; with a positive supply limit it is at most ten times that
    one.  This holds for every request, every state of the pulse window
    and both cutoffs, on builds without the slew limiter and, inside the
    ranges of [slewInRange], on builds with it. *)
Theorem limits_bound_the_commit (s : state) (e : env) (x : Z) :
  slewInRange cfg s e x -> x <= INT32_MAX ->
  (getSettingValue e PowerLimit <> 0 ->
   filteredOutput cfg s e x <= getSettingValue e PowerLimit * 10)
  /\ (0 < supplyLimit e -> supplyLimit e * 10 <= INT32_MAX ->
      filteredOutput cfg s e x <= supplyLimit e * 10).
Proof.
  intros Hr Hx.
  pose proof (filteredOutput_le_chain s e x Hr Hx) as Hle.
  pose proof (u16_range (settings e PowerLimit)) as Hpl.
  fold (getSettingValue e PowerLimit) in Hpl.
  split.
  - intros Hset.
    assert (Hc : chain (pulseWindow cfg s e) e x <= getSettingValue e PowerLimit * 10).
    { etransitivity; [apply supplyCeiling_le |].
      unfold powerLimitCeiling. apply Z.eqb_neq in Hset. rewrite Hset. cbn [negb andb].
      split_cmp; lia. }
    lia.
  - intros Hpos Hfit.
    assert (Hc : chain (pulseWindow cfg s e) e x <= supplyLimit e * 10).
    { unfold supplyCeiling.
      rewrite s32_small by (unfold INT32_MIN; lia).
      destruct (supplyLimit e =? 0) eqn:Hz; [apply Z.eqb_eq in Hz; lia |].
      cbn [negb andb]. split_cmp; lia. }
    lia.
Qed.

(** X4. The clamp chain preserves order: on the same state and readings, a
    larger request is never committed as a smaller value than a smaller
    request. *)
Theorem filteredOutput_monotone (s : state) (e : env) (x y : Z) :
  x <= y -> y <= INT32_MAX -> slewInRange cfg s e x ->
  filteredOutput cfg s e x <= filteredOutput cfg s e y.
Proof.
  intros Hxy Hy Hr.
  assert (Hry : slewInRange cfg s e y).
  { unfold slewInRange in *. destruct (SLEW_LIMIT cfg); [| exact I].
    destruct Hr as (H1 & H2 & H3 & H4).
    split; [exact H1 | split; [exact H2 | split; [lia | exact H4]]]. }
  rewrite (filteredOutput_in_range s e x), (filteredOutput_in_range s e y)
    by (assumption || lia).
  pose proof (chain_mono (pulseWindow cfg s e) e x y Hxy).
  destruct (SLEW_LIMIT cfg); lia.
Qed.

(** X5. Only the keep-awake floor raises a request.  What is committed is
    at most the larger of the request and the pulse level; when the pulse
    is off, or its window has closed by the tick read for the floor, it is
    at most the request, or 0 for a negative request. *)
Theorem only_the_floor_raises (s : state) (e : env) (x : Z) :
  slewInRange cfg s e x -> x <= INT32_MAX ->
  filteredOutput cfg s e x <= Z.max x (getSettingValue e KeepAwakePulse)
  /\ (getSettingValue e KeepAwakePulse = 0
      \/ lastPowerPulseEnd (pulseWindow cfg s e) <= u32 (tickPulseFloor e) ->
      filteredOutput cfg s e x <= Z.max x 0).
Proof.
  intros Hr Hx.
  pose proof (filteredOutput_le_chain s e x Hr Hx) as Hle.
  pose proof (chain_le_floor (pulseWindow cfg s e) e x) as Hfl.
  pose proof (u16_range (settings e KeepAwakePulse)) as Hka.
  fold (getSettingValue e KeepAwakePulse) in Hka.
  split.
  - assert (pulseFloor (pulseWindow cfg s e) e x
            <= Z.max x (getSettingValue e KeepAwakePulse)).
    { unfold pulseFloor. destruct (_ =? 0); [lia |]. destruct (_ && _); lia. }
    lia.
  - intros Hoff.
    assert (Hf : pulseFloor (pulseWindow cfg s e) e x = x).
    { unfold pulseFloor. destruct Hoff as [Hoff | Hclosed].
      - rewrite Hoff. reflexivity.
      - destruct (_ =? 0); [reflexivity |].
        apply Z.ltb_ge in Hclosed. rewrite Hclosed, andb_false_r. reflexivity. }
    rewrite Hf in Hfl, Hle. lia.
Qed.

(** ** The error *)

Lemma clampTarget_range (e : env) : 0 <= clampTarget e <= 450.
Proof.
  unfold clampTarget.
  pose proof (u32_range (currentTempTargetDegC e)) as Ht.
  pose proof (u32_range (getTipMaxInC e)) as Hm.
  fold (tempTarget e) in Ht. fold (tipMaxInC e) in Hm.
  destruct (tempTarget e >? 450) eqn:H450;
    [apply gtb_true_iff in H450 | apply gtb_false_iff in H450];
    split_cmp; lia.
Qed.

Lemma saturate16_clamps (z : Z) :
  saturate16 z = Z.max INT16_MIN (Z.min INT16_MAX z).
Proof.
  unfold saturate16, INT16_MIN, INT16_MAX.
  destruct (z >? 32767) eqn:Hhi;
    [apply gtb_true_iff in Hhi | apply gtb_false_iff in Hhi];
    split_cmp; lia.
Qed.

(** X6. Although the difference is taken in [uint32_t], the error is the
    signed difference between the clamped set point and the tip
    temperature, plus one, cut to 16 bits, as long as the reading is not
    more than 2^31 + 1 above the set point; it is positive exactly when the
    tip is not above the set point.  A reading further above than that
    wraps around and gives a positive error. *)
Theorem tempError_is_signed_difference (e : env) :
  (currentTipTempInC e <= clampTarget e + 1 + 2147483648 ->
   tempErrorOf e =
     Z.max INT16_MIN (Z.min INT16_MAX (clampTarget e - currentTipTempInC e + 1))
   /\ (0 < tempErrorOf e <-> currentTipTempInC e <= clampTarget e))
  /\ (clampTarget e + 1 + 2147483648 < currentTipTempInC e -> 0 < tempErrorOf e).
Proof.
  pose proof (clampTarget_range e) as Ht.
  pose proof (u32_range (getTipInC e)) as Hc. fold (currentTipTempInC e) in Hc.
  unfold tempErrorOf. rewrite s32_u32, saturate16_clamps. split.
  - intros Hlow.
    rewrite s32_small by (unfold INT32_MIN, INT32_MAX; lia).
    split; [reflexivity |]. unfold INT16_MIN, INT16_MAX. lia.
  - intros Hhigh.
    assert (Hw : s32 (clampTarget e - currentTipTempInC e + 1)
                 = clampTarget e - currentTipTempInC e + 1 + 4294967296).
    { unfold s32, wrapS.
      replace (clampTarget e - currentTipTempInC e + 1 + 2 ^ (32 - 1))
        with (clampTarget e - currentTipTempInC e + 1 + 2 ^ (32 - 1) + 4294967296
              + (-1) * 2 ^ 32) by lia.
      rewrite Z.mod_add by lia. rewrite Z.mod_small by lia. lia. }
    rewrite Hw. unfold INT16_MIN, INT16_MAX. lia.
Qed.

(** ** A cycle with the heater off *)

(** X7. With the set point at 0 and the keep-awake pulse off, a notified
    iteration commits 0: nothing is added to the request and no stage
    raises it.  It leaves the runaway flag and the error history as they
    are and moves the runaway baseline to the current temperature and
    tick.  Ten times the supply limit, as the supply ceiling computes it
    in [int32_t], is taken not negative, and so is the runaway threshold;
    the slew step and [x10WattsOutLast] are taken at their types. *)
Theorem heater_off_commits_zero (s : state) (e : env) :
  notified e = true -> tempTarget e = 0 ->
  getSettingValue e KeepAwakePulse = 0 ->
  supplyProduct_nonneg e -> slewLimit_wf cfg -> state_wf s ->
  0 <= THERMAL_RUNAWAY_TEMP_C cfg ->
  let s' := (pidCycle cfg s e).1 in
  (pidCycle cfg s e).2 =
    SetTipX10Watts 0
      :: (if DEBUG_UART_OUTPUT cfg then [LogSystemState 0] else [])
      ++ [ResetWatchdog]
  /\ heaterThermalRunaway s' = heaterThermalRunaway s
  /\ tempError s' = tempError s
  /\ tipTempCRunawayTemp s' = u16 (s16 (currentTipTempInC e))
  /\ runawaylastChangeTime s' = u32 (tickRunaway e).
Proof.
  intros Hn Hz Hka He Hl Hs Hthr s'. subst s'.
  rewrite (pidCycle_notified cfg s e Hn).
  assert (Hc : pidCompute cfg s e = (set_PIDTempTarget 0 s, 0, 0)).
  { unfold pidCompute. rewrite Hz. reflexivity. }
  rewrite Hc. cbn [fst snd].
  assert (Hd : detectThermalRunaway cfg (set_PIDTempTarget 0 s)
                 (currentTipTempInC e) 0 (tickRunaway e)
               = set_runawayBaseline (u16 (s16 (currentTipTempInC e)))
                   (u32 (tickRunaway e)) (set_PIDTempTarget 0 s)).
  { unfold detectThermalRunaway.
    apply gtb_false_iff in Hthr. rewrite Hthr. reflexivity. }
  rewrite Hd. set (s1 := set_runawayBaseline _ _ _).
  assert (Hout : filteredOutput cfg s1 e 0 = 0).
  { unfold filteredOutput. rewrite (pulseWindow_off s1 e Hka).
    assert (Hcut : runawayCutoff s1 (adcCutoff e (pulseFloor s1 e 0)) = 0).
    { unfold runawayCutoff, adcCutoff, pulseFloor. rewrite Hka. cbn [Z.eqb].
      destruct (heaterThermalRunaway s1); [reflexivity |].
      destruct (tipRawTemp e >? 0x7FFF - 32); reflexivity. }
    rewrite Hcut. apply forced_zero_stays; assumption. }
  split; [rewrite setOutput_trace, Hout; reflexivity |].
  split; [rewrite setOutput_flag; reflexivity |].
  unfold setOutputx10WattsViaFilters. cbn [fst].
  rewrite (pulseWindow_off s1 e Hka).
  destruct (SLEW_LIMIT cfg); cbn; repeat split.
Qed.

(** ** The runaway detector over time *)

Lemma detect_timestamp (s : state) (tipTemp tError now : Z) :
  runawaylastChangeTime (detectThermalRunaway cfg s tipTemp tError now)
    = runawaylastChangeTime s
  \/ runawaylastChangeTime (detectThermalRunaway cfg s tipTemp tError now) = u32 now.
Proof.
  unfold detectThermalRunaway.
  destruct (tError >? _); [| right; reflexivity].
  destruct (runawayDelta s tipTemp >? _); [right; reflexivity |].
  destruct (runawayElapsed s now >? _); left; reflexivity.
Qed.

Lemma quiet_run (hi : Z) (calls : list (Z * Z * Z)) :
  hi <= 4294967295 ->
  forall (s : state) (lo : Z),
    heaterThermalRunaway s = false ->
    0 <= runawaylastChangeTime s <= lo ->
    hi - runawaylastChangeTime s <= runawayTimeLimit cfg ->
    ticksWithin lo hi calls ->
    heaterThermalRunaway (detectRun cfg s calls) = false.
Proof.
  intros Hhi.
  induction calls as [| [[tipTemp tError] now] calls' IH];
    intros s lo Hflag Hts Hlim Hticks.
  - exact Hflag.
  - cbn [detectRun]. cbn [ticksWithin] in Hticks. destruct Hticks as [Hnow Hrest].
    assert (Hnow32 : u32 now = now) by (apply u32_small; lia).
    assert (Hel : runawayElapsed s now = now - runawaylastChangeTime s).
    { unfold runawayElapsed. rewrite Hnow32. apply u32_small. lia. }
    apply (IH _ now).
    + destruct (heaterThermalRunaway (detectThermalRunaway cfg s tipTemp tError now))
        eqn:Hafter; [| reflexivity].
      apply detect_fires_iff in Hafter.
      destruct Hafter as [Hset | (_ & _ & Hgt)]; [congruence | lia].
    + destruct (detect_timestamp s tipTemp tError now) as [Heq | Heq];
        rewrite Heq; lia.
    + destruct (detect_timestamp s tipTemp tError now) as [Heq | Heq];
        rewrite Heq; lia.
    + exact Hrest.
Qed.

(** X8. The detector cannot raise the flag within the time limit of a
    baseline.  Starting with the flag clear, over any run of calls whose
    tick counts do not decrease and stay within the time limit of the
    baseline timestamp the run starts from, the flag is still clear at the
    end, whatever the temperatures and the errors (tick counter not
    wrapping). *)
Theorem detector_needs_the_time_limit (s : state) (hi : Z) (calls : list (Z * Z * Z)) :
  heaterThermalRunaway s = false ->
  0 <= runawaylastChangeTime s ->
  hi <= 4294967295 ->
  hi - runawaylastChangeTime s <= runawayTimeLimit cfg ->
  ticksWithin (runawaylastChangeTime s) hi calls ->
  heaterThermalRunaway (detectRun cfg s calls) = false.
Proof.
  intros Hflag Hts Hhi Hlim Hticks.
  apply (quiet_run hi calls Hhi s (runawaylastChangeTime s)); try assumption. lia.
Qed.

Lemma stalled_run (s : state) (calls : list (Z * Z * Z)) :
  Forall (fun c => c.1.2 > THERMAL_RUNAWAY_TEMP_C cfg
                   /\ runawayDelta s c.1.1 <= THERMAL_RUNAWAY_TEMP_C cfg) calls ->
  forall s0 : state,
    sameBaseline s s0 ->
    sameBaseline s (detectRun cfg s0 calls)
    /\ (heaterThermalRunaway s0 = true
        \/ Exists (fun c => runawayElapsed s c.2 > runawayTimeLimit cfg) calls ->
        heaterThermalRunaway (detectRun cfg s0 calls) = true).
Proof.
  induction 1 as [| [[tipTemp tError] now] calls' [Herr Hdelta] Hall IH];
    intros s0 [Htemp Htime].
  - cbn. split; [split; assumption |].
    intros [Hset | Hex]; [exact Hset | inversion Hex].
  - cbn [detectRun]. cbn [fst snd] in Herr, Hdelta.
    assert (Hd0 : runawayDelta s0 tipTemp = runawayDelta s tipTemp)
      by (unfold runawayDelta; rewrite Htemp; reflexivity).
    assert (He0 : runawayElapsed s0 now = runawayElapsed s now)
      by (unfold runawayElapsed; rewrite Htime; reflexivity).
    assert (Hstep : sameBaseline s (detectThermalRunaway cfg s0 tipTemp tError now)).
    { unfold detectThermalRunaway, sameBaseline.
      apply gtb_true_iff in Herr. rewrite Herr.
      rewrite Hd0. apply gtb_false_iff in Hdelta. rewrite Hdelta.
      destruct (runawayElapsed s0 now >? _); cbn; split; assumption. }
    destruct (IH _ Hstep) as [Hbase Hfire]. split; [exact Hbase |].
    intros Hcause. apply Hfire.
    destruct Hcause as [Hset | Hex].
    + left. apply detect_flag_kept, Hset.
    + inversion Hex as [c l Hnow | c l Hlater]; subst.
      * left. apply detect_fires_iff. right. cbn [snd] in Hnow.
        rewrite Hd0, He0. repeat split; assumption.
      * right. exact Hlater.
Qed.

(** X9. A stalled tip is detected.  Over a run of calls that all carry an
    error above the threshold and a temperature within the threshold of
    the baseline, the baseline stays where it is, and if one of the calls
    comes later than the time limit after the baseline timestamp the flag
    is set at the end of the run. *)
Theorem stalled_heating_raises_flag (s : state) (calls : list (Z * Z * Z)) :
  Forall (fun c => c.1.2 > THERMAL_RUNAWAY_TEMP_C cfg
                   /\ runawayDelta s c.1.1 <= THERMAL_RUNAWAY_TEMP_C cfg) calls ->
  Exists (fun c => runawayElapsed s c.2 > runawayTimeLimit cfg) calls ->
  heaterThermalRunaway (detectRun cfg s calls) = true
  /\ sameBaseline s (detectRun cfg s calls).
Proof.
  intros Hall Hex.
  destruct (stalled_run s calls Hall s) as [Hbase Hfire]; [split; reflexivity |].
  split; [apply Hfire; right; exact Hex | exact Hbase].
Qed.

(** ** The error history *)

(** X10. The error history is fed on heating iterations only.  A notified
    iteration with a nonzero set point pushes one sample into [tempError],
    the error of that iteration, which fits 16 bits; an iteration that
    times out, or finds the set point at 0, leaves [tempError] exactly as
    it was, so the samples of the last heating phase stay in it. *)
Theorem error_history_fed_when_heating (s : state) (e : env) :
  (notified e = true -> tempTarget e <> 0 ->
   tempError (pidCycle cfg s e).1 =
     history_update (PID_TIM_HZ cfg) (tempError s) (tempErrorOf e)
   /\ INT16_MIN <= tempErrorOf e <= INT16_MAX)
  /\ (notified e = false \/ tempTarget e = 0 ->
      tempError (pidCycle cfg s e).1 = tempError s).
Proof.
  rewrite pidCycle_tempError. split.
  - intros Hn Hnz. apply Z.eqb_neq in Hnz. rewrite Hn, Hnz. cbn [negb andb].
    split; [reflexivity | apply saturate16_range].
  - intros [Hn | Hz].
    + rewrite Hn. reflexivity.
    + rewrite Hz. cbn [Z.eqb negb]. rewrite andb_false_r. reflexivity.
Qed.

(** ** What every reachable state satisfies *)

Lemma pidCompute_typed (s : state) (e : env) :
  state_typed s -> state_typed (pidCompute cfg s e).1.1.
Proof.
  unfold state_typed. intros (_ & H2 & H3 & H4 & H5 & H6).
  pose proof (clampTarget_range e).
  unfold pidCompute. destruct (tempTarget e =? 0); cbn; repeat split; lia.
Qed.

Lemma detect_typed (s : state) (tipTemp tError now : Z) :
  state_typed s -> state_typed (detectThermalRunaway cfg s tipTemp tError now).
Proof.
  unfold state_typed. intros (H1 & H2 & H3 & H4 & H5 & H6).
  pose proof (u16_range (s16 tipTemp)). pose proof (u32_range now).
  unfold detectThermalRunaway.
  destruct (tError >? _); [destruct (runawayDelta s tipTemp >? _);
                           [| destruct (runawayElapsed s now >? _)] |];
    cbn; repeat split; lia.
Qed.

Lemma setOutput_typed (s : state) (e : env) (x : Z) :
  state_typed s -> x <= INT32_MAX ->
  state_typed (setOutputx10WattsViaFilters cfg s e x).1.
Proof.
  unfold state_typed. intros (H1 & H2 & H3 & H4 & H5 & H6) Hx.
  assert (Hout : forall limit, SLEW_LIMIT cfg = Some limit ->
                               0 <= filteredOutput cfg s e x <= INT32_MAX).
  { intros limit Hl. split.
    - unfold filteredOutput. apply (slewLimit_nonneg cfg _ _ limit Hl).
    - apply (filteredOutput_int32 cfg s e x limit Hl Hx). }
  unfold setOutputx10WattsViaFilters. cbn [fst].
  set (out := filteredOutput cfg s e x) in *.
  pose proof (u32_range (tickPulseStart e)).
  pose proof (u32_range (u32 (tickPulseStart e)
                         + u32 (powerPulseDurationUnit cfg
                                * getSettingValue e KeepAwakePulseDuration))).
  destruct (SLEW_LIMIT cfg) as [limit |];
    [specialize (Hout limit eq_refl) | clear Hout];
    unfold pulseWindow;
    destruct (getSettingValue e KeepAwakePulse =? 0);
    try destruct (u32 (u32 (tickPulseCheck e) - lastPowerPulseStart s) >? _);
    cbn; repeat split; lia.
Qed.

Lemma pidCycle_typed (s : state) (e : env) :
  state_typed s -> state_typed (pidCycle cfg s e).1.
Proof.
  intros Hs. destruct (notified e) eqn:Hn.
  - rewrite (pidCycle_notified cfg s e Hn).
    apply setOutput_typed; [| apply pidCompute_request_le].
    apply detect_typed, pidCompute_typed, Hs.
  - unfold pidCycle. rewrite Hn. exact Hs.
Qed.

(** X11. In every state the task reaches, after any number of iterations
    with any readings, the stored set point is at most 450, the previous
    output is not negative, and every field is within the range of its
    type. *)
Theorem reachable_states_are_typed (es : list env) :
  state_typed (startPIDTask cfg es).1.
Proof.
  assert (Hinit : state_typed (initState cfg)).
  { unfold state_typed, initState, INT32_MAX. cbn. lia. }
  assert (Hrun : forall es' s, state_typed s -> state_typed (pidRun cfg s es').1).
  { induction es' as [| e es' IH]; intros s Hs; [exact Hs |].
    rewrite pidRun_cons. cbn [fst]. apply IH, pidCycle_typed, Hs. }
  unfold startPIDTask. specialize (Hrun es _ Hinit).
  destruct (pidRun cfg (initState cfg) es) as [s tr]. exact Hrun.
Qed.

(** ** The keep-awake pulse *)

Lemma pulseWindow_fields (s s0 : state) (e : env) :
  lastPowerPulseStart s0 = lastPowerPulseStart s ->
  lastPowerPulseEnd s0 = lastPowerPulseEnd s ->
  lastPowerPulseStart (pulseWindow cfg s0 e) = lastPowerPulseStart (pulseWindow cfg s e)
  /\ lastPowerPulseEnd (pulseWindow cfg s0 e) = lastPowerPulseEnd (pulseWindow cfg s e).
Proof.
  intros Hs He. unfold pulseWindow. rewrite Hs.
  destruct (getSettingValue e KeepAwakePulse =? 0); [split; assumption |].
  destruct (_ >? _); cbn; split; (reflexivity || assumption).
Qed.

(** The pulse window after an iteration is the one [pulseWindow] computes
    from the window before it; an iteration that times out keeps it. *)
Lemma pidCycle_window (s : state) (e : env) :
  lastPowerPulseStart (pidCycle cfg s e).1 =
    lastPowerPulseStart (if notified e then pulseWindow cfg s e else s)
  /\ lastPowerPulseEnd (pidCycle cfg s e).1 =
       lastPowerPulseEnd (if notified e then pulseWindow cfg s e else s).
Proof.
  destruct (notified e) eqn:Hn.
  - rewrite (pidCycle_notified cfg s e Hn).
    set (s2 := detectThermalRunaway cfg _ _ _ _).
    assert (H2 : lastPowerPulseStart s2 = lastPowerPulseStart s
                 /\ lastPowerPulseEnd s2 = lastPowerPulseEnd s).
    { subst s2. unfold detectThermalRunaway, pidCompute.
      destruct (tempTarget e =? 0); cbn [fst snd];
        repeat split_cmp; cbn; split; reflexivity. }
    destruct H2 as [Hs He].
    destruct (pulseWindow_fields s s2 e Hs He) as [Hs' He'].
    rewrite <- Hs', <- He'.
    unfold setOutputx10WattsViaFilters. cbn [fst].
    destruct (SLEW_LIMIT cfg); cbn; split; reflexivity.
  - unfold pidCycle. rewrite Hn. split; reflexivity.
Qed.

(** X12. With the keep-awake pulse off the pulse window is never touched:
    over any run of iterations that all read the setting as 0, the two
    timestamps keep the values they had. *)
Theorem pulse_off_keeps_window (es : list env) (s : state) :
  Forall (fun e => getSettingValue e KeepAwakePulse = 0) es ->
  lastPowerPulseStart (pidRun cfg s es).1 = lastPowerPulseStart s
  /\ lastPowerPulseEnd (pidRun cfg s es).1 = lastPowerPulseEnd s.
Proof.
  intros Hes. revert s. induction Hes as [| e es' He Hes' IH]; intros s.
  - split; reflexivity.
  - rewrite pidRun_cons. cbn [fst].
    destruct (IH (pidCycle cfg s e).1) as [IHs IHe]. rewrite IHs, IHe.
    destruct (pidCycle_window s e) as [Hs' He']. rewrite Hs', He'.
    rewrite (pulseWindow_off s e He). destruct (notified e); split; reflexivity.
Qed.


Lemma pidCycle_window_length (duration : Z) (s : state) (e : env) :
  getSettingValue e KeepAwakePulseDuration = duration ->
  let ok (s0 : state) :=
    (lastPowerPulseStart s0 = 0 /\ lastPowerPulseEnd s0 = 0)
    \/ lastPowerPulseEnd s0 =
         u32 (lastPowerPulseStart s0 + u32 (powerPulseDurationUnit cfg * duration)) in
  ok s -> ok (pidCycle cfg s e).1.
Proof.
  intros Hd ok Hs. subst ok. cbv beta in *.
  destruct (pidCycle_window s e) as [Hs' He']. rewrite Hs', He'.
  destruct (notified e); [| exact Hs].
  unfold pulseWindow.
  destruct (getSettingValue e KeepAwakePulse =? 0); [exact Hs |].
  destruct (_ >? _); [| exact Hs].
  right. cbn. rewrite Hd. reflexivity.
Qed.

(** X14. The pulse window has the configured length.  While every
    iteration reads the same duration setting, in every state the task
    reaches the window is either the initial one (both timestamps 0) or
    ends exactly one configured duration after it starts, in [TickType_t]
    arithmetic. *)
Theorem pulse_window_has_configured_length (duration : Z) (es : list env) :
  Forall (fun e => getSettingValue e KeepAwakePulseDuration = duration) es ->
  let s := (startPIDTask cfg es).1 in
  (lastPowerPulseStart s = 0 /\ lastPowerPulseEnd s = 0)
  \/ lastPowerPulseEnd s =
       u32 (lastPowerPulseStart s + u32 (powerPulseDurationUnit cfg * duration)).
Proof.
  intros Hes.
  assert (Hrun : forall s0,
            (lastPowerPulseStart s0 = 0 /\ lastPowerPulseEnd s0 = 0)
            \/ lastPowerPulseEnd s0 =
                 u32 (lastPowerPulseStart s0
                      + u32 (powerPulseDurationUnit cfg * duration)) ->
            let s1 := (pidRun cfg s0 es).1 in
            (lastPowerPulseStart s1 = 0 /\ lastPowerPulseEnd s1 = 0)
            \/ lastPowerPulseEnd s1 =
                 u32 (lastPowerPulseStart s1
                      + u32 (powerPulseDurationUnit cfg * duration))).
  { induction Hes as [| e es' He Hes' IH]; intros s0 Hs0; [exact Hs0 |].
    rewrite pidRun_cons. cbn [fst]. apply IH.
    apply (pidCycle_window_length duration s0 e He), Hs0. }
  unfold startPIDTask.
  specialize (Hrun (initState cfg) (or_introl (conj eq_refl eq_refl))).
  destruct (pidRun cfg (initState cfg) es) as [s tr]. exact Hrun.
Qed.
End MoreProperties.

(** * Concrete runs of the further properties *)

(** X1 on a build with a step of 20 W: previous output 15 W, 500 W
    requested, 35 W committed. *)
Lemma slew_bounds_the_increase_witness :
  SLEW_LIMIT slewConfig = Some 200
  /\ x10WattsOutLast slewAt150 = 150
  /\ 0 <= filteredOutput slewConfig slewAt150 plainReading 5000 <= 150 + 200
  /\ filteredOutput slewConfig slewAt150 plainReading 5000 = 350
  /\ x10WattsOutLast (setOutputx10WattsViaFilters slewConfig slewAt150 plainReading 5000).1
     = filteredOutput slewConfig slewAt150 plainReading 5000.
Proof.
  assert (Hlim : 0 <= 200) by by_evaluation.
  assert (Hlast : 0 <= x10WattsOutLast slewAt150 <= INT32_MAX) by by_evaluation.
  assert (Hx : 5000 <= INT32_MAX) by by_evaluation.
  destruct (slew_bounds_the_increase slewConfig slewAt150 plainReading 5000 200
              eq_refl Hlim Hlast Hx) as (H1 & H2).
  split; [reflexivity |]. split; [reflexivity |].
  split; [exact H1 |]. split; [reflexivity | exact H2].
Defined.


(** X3 with limits of 30 W and 65 W and 724.2 W requested. *)
Lemma limits_bound_the_commit_witness :
  slewInRange slewConfig slewAt150 highDemand 7242
  /\ getSettingValue highDemand PowerLimit = 30
  /\ supplyLimit highDemand = 65
  /\ filteredOutput slewConfig slewAt150 highDemand 7242 <= 30 * 10
  /\ filteredOutput slewConfig slewAt150 highDemand 7242 <= 65 * 10.
Proof.
  assert (Hr : slewInRange slewConfig slewAt150 highDemand 7242) by by_evaluation.
  assert (Hx : 7242 <= INT32_MAX) by by_evaluation.
  destruct (limits_bound_the_commit slewConfig slewAt150 highDemand 7242 Hr Hx)
    as (H1 & H2).
  split; [exact Hr |]. split; [reflexivity |]. split; [reflexivity |].
  split; [apply H1; by_evaluation | apply H2; by_evaluation].
Defined.

(** X4 on requests of 10 W and 724.2 W. *)
Lemma filteredOutput_monotone_witness :
  slewInRange slewConfig slewAt150 highDemand 100
  /\ filteredOutput slewConfig slewAt150 highDemand 100
     <= filteredOutput slewConfig slewAt150 highDemand 7242.
Proof.
  assert (Hxy : 100 <= 7242) by by_evaluation.
  assert (Hy : 7242 <= INT32_MAX) by by_evaluation.
  assert (Hr : slewInRange slewConfig slewAt150 highDemand 100) by by_evaluation.
  split; [exact Hr |].
  exact (filteredOutput_monotone slewConfig slewAt150 highDemand 100 7242 Hxy Hy Hr).
Defined.

(** X5 on a negative request inside a pulse window, and on a small request
    outside one. *)
Lemma only_the_floor_raises_witness :
  filteredOutput plainConfig (initState plainConfig) overshootPulse (-1683)
    <= Z.max (-1683) (getSettingValue overshootPulse KeepAwakePulse)
  /\ lastPowerPulseEnd (pulseWindow plainConfig (initState plainConfig) heatingReading)
     <= u32 (tickPulseFloor heatingReading)
  /\ filteredOutput plainConfig (initState plainConfig) heatingReading 2 <= Z.max 2 0.
Proof.
  assert (Hx1 : -1683 <= INT32_MAX) by by_evaluation.
  assert (Hx2 : 2 <= INT32_MAX) by by_evaluation.
  destruct (only_the_floor_raises plainConfig (initState plainConfig)
              overshootPulse (-1683) I Hx1) as (H1 & _).
  destruct (only_the_floor_raises plainConfig (initState plainConfig)
              heatingReading 2 I Hx2) as (_ & H2).
  assert (Hclosed : lastPowerPulseEnd
                      (pulseWindow plainConfig (initState plainConfig) heatingReading)
                    <= u32 (tickPulseFloor heatingReading)) by by_evaluation.
  split; [exact H1 |]. split; [exact Hclosed |].
  apply H2. right. exact Hclosed.
Defined.

(** X6 on a cold tip, and on a reading that wraps. *)
Lemma tempError_is_signed_difference_witness :
  tempErrorOf coldStart = 101
  /\ (0 < tempErrorOf coldStart <-> currentTipTempInC coldStart <= clampTarget coldStart)
  /\ currentTipTempInC wrappedReading = 4000000000
  /\ 0 < tempErrorOf wrappedReading.
Proof.
  destruct (tempError_is_signed_difference coldStart) as (H1 & _).
  destruct (tempError_is_signed_difference wrappedReading) as (_ & H2).
  destruct H1 as (Ha & Hb); [by_evaluation |].
  split; [rewrite Ha; reflexivity |]. split; [exact Hb |].
  split; [reflexivity |]. apply H2. by_evaluation.
Defined.

(** X7 after a heating iteration: the set point drops to 0 with the tip at
    200 degrees. *)
Lemma heater_off_commits_zero_witness :
  notified offReading = true
  /\ tempTarget offReading = 0
  /\ supplyProduct_nonneg offReading
  /\ (pidCycle plainConfig afterHeating offReading).2 = [SetTipX10Watts 0; ResetWatchdog]
  /\ tempError (pidCycle plainConfig afterHeating offReading).1 = tempError afterHeating
  /\ tipTempCRunawayTemp (pidCycle plainConfig afterHeating offReading).1 = 200.
Proof.
  assert (He : supplyProduct_nonneg offReading) by by_evaluation.
  assert (Hs : state_wf afterHeating) by by_evaluation.
  assert (Hthr : 0 <= THERMAL_RUNAWAY_TEMP_C plainConfig) by by_evaluation.
  destruct (heater_off_commits_zero plainConfig afterHeating offReading
              eq_refl eq_refl eq_refl He I Hs Hthr) as (H1 & _ & H3 & H4 & _).
  split; [reflexivity |]. split; [reflexivity |]. split; [exact He |].
  split; [exact H1 |]. split; [exact H3 | exact H4].
Defined.

(** X8: two calls on a resting tip, the later one exactly at the limit. *)
Lemma detector_needs_the_time_limit_witness :
  ticksWithin (runawaylastChangeTime stalledBaseline) 21000 restingWithin
  /\ 21000 - runawaylastChangeTime stalledBaseline <= runawayTimeLimit plainConfig
  /\ heaterThermalRunaway (detectRun plainConfig stalledBaseline restingWithin) = false.
Proof.
  assert (Hts : 0 <= runawaylastChangeTime stalledBaseline) by by_evaluation.
  assert (Hhi : 21000 <= 4294967295) by by_evaluation.
  assert (Hlim : 21000 - runawaylastChangeTime stalledBaseline
                 <= runawayTimeLimit plainConfig) by by_evaluation.
  assert (Hticks : ticksWithin (runawaylastChangeTime stalledBaseline) 21000
                     restingWithin) by by_evaluation.
  split; [exact Hticks |]. split; [exact Hlim |].
  exact (detector_needs_the_time_limit plainConfig stalledBaseline 21000 restingWithin
           eq_refl Hts Hhi Hlim Hticks).
Defined.

(** X9: the same tip, the later call one tick past the limit. *)
Lemma stalled_heating_raises_flag_witness :
  heaterThermalRunaway stalledBaseline = false
  /\ heaterThermalRunaway (detectRun plainConfig stalledBaseline restingBeyond) = true
  /\ sameBaseline stalledBaseline (detectRun plainConfig stalledBaseline restingBeyond).
Proof.
  assert (Hall : Forall (fun c => c.1.2 > THERMAL_RUNAWAY_TEMP_C plainConfig
                                  /\ runawayDelta stalledBaseline c.1.1
                                     <= THERMAL_RUNAWAY_TEMP_C plainConfig)
                   restingBeyond)
    by (repeat constructor; by_evaluation).
  assert (Hex : Exists (fun c => runawayElapsed stalledBaseline c.2
                                 > runawayTimeLimit plainConfig) restingBeyond)
    by (apply Exists_cons_tl, Exists_cons_hd; by_evaluation).
  split; [reflexivity |].
  exact (stalled_heating_raises_flag plainConfig stalledBaseline restingBeyond Hall Hex).
Defined.

(** X10 on a first heating iteration and on an iteration with the heater
    off. *)
Lemma error_history_fed_when_heating_witness :
  buf (tempError (pidCycle plainConfig (initState plainConfig) coldStart).1)
    = [101; 0; 0; 0; 0; 0; 0; 0]
  /\ tempError (pidCycle plainConfig afterHeating offReading).1 = tempError afterHeating
  /\ tempError (pidCycle plainConfig afterHeating (timedOut heatingReading)).1
     = tempError afterHeating.
Proof.
  destruct (error_history_fed_when_heating plainConfig (initState plainConfig) coldStart)
    as (H1 & _).
  destruct (error_history_fed_when_heating plainConfig afterHeating offReading)
    as (_ & H2).
  destruct (error_history_fed_when_heating plainConfig afterHeating
              (timedOut heatingReading)) as (_ & H3).
  destruct H1 as (Ha & _); [reflexivity | by_evaluation |].
  split; [rewrite Ha; reflexivity |].
  split; [apply H2; right; reflexivity | apply H3; left; reflexivity].
Defined.

(** X12 after a pulse window was opened at tick 10001. *)
Lemma pulse_off_keeps_window_witness :
  lastPowerPulseStart afterPulse = 10001
  /\ lastPowerPulseEnd afterPulse = 10251
  /\ lastPowerPulseStart (pidRun plainConfig afterPulse [coldStart; offReading]).1 = 10001
  /\ lastPowerPulseEnd (pidRun plainConfig afterPulse [coldStart; offReading]).1 = 10251.
Proof.
  assert (Hoff : Forall (fun e => getSettingValue e KeepAwakePulse = 0)
                   [coldStart; offReading]) by (repeat constructor).
  destruct (pulse_off_keeps_window plainConfig [coldStart; offReading] afterPulse Hoff)
    as (H1 & H2).
  split; [reflexivity |]. split; [reflexivity |].
  split; [rewrite H1; reflexivity | rewrite H2; reflexivity].
Defined.


(** X14 over an iteration before a window is due and one that opens it. *)
Lemma pulse_window_has_configured_length_witness :
  Forall (fun e => getSettingValue e KeepAwakePulseDuration = 1)
    [heatingReading; overshootPulse]
  /\ lastPowerPulseStart (startPIDTask plainConfig [heatingReading; overshootPulse]).1
     = 10001
  /\ ((lastPowerPulseStart (startPIDTask plainConfig [heatingReading; overshootPulse]).1 = 0
       /\ lastPowerPulseEnd (startPIDTask plainConfig [heatingReading; overshootPulse]).1 = 0)
      \/ lastPowerPulseEnd (startPIDTask plainConfig [heatingReading; overshootPulse]).1
         = u32 (lastPowerPulseStart
                  (startPIDTask plainConfig [heatingReading; overshootPulse]).1
                + u32 (powerPulseDurationUnit plainConfig * 1))).
Proof.
  assert (Hes : Forall (fun e => getSettingValue e KeepAwakePulseDuration = 1)
                  [heatingReading; overshootPulse]) by (repeat constructor).
  split; [exact Hes |]. split; [reflexivity |].
  exact (pulse_window_has_configured_length plainConfig 1
           [heatingReading; overshootPulse] Hes).
Defined.
